(** * IdeaSystemXS: retrieval and ranking core

    A shallow embedding of [src/business/search_engine.py] (class
    [SearchEngine]), of [VectorDBManager.search_similar_ideas]
    ([src/data/vector_db_manager.py]), of [IdeaManager.get_idea] and
    [IdeaManager.get_idea_tags] ([src/business/idea_manager.py]) and of
    [EmbeddingGenerator.generate_embedding]
    ([src/ai/embedding_generator.py]).

    Modelling conventions.
    - Text is ASCII: a Python [str] is a [string]; [str.lower] folds
      [A-Z]; SQLite's [LIKE] folds the same letters and reads a pattern
      character by character.  Outside ASCII [str.lower] folds more
      letters than [LIKE], and SQLite stops reading a pattern at a NUL
      character; a statement that relates [LIKE] to [str.lower] or to
      [str.count] therefore names its texts [plain_ascii].
    - A Python [float] is a rational kept in lowest terms; rounding is not
      modelled.
    - The SQLite tables are lists of rows in rowid order.  [ORDER BY] is a
      stable sort of that order, [LIMIT]/[OFFSET] are [firstn]/[skipn].
      SQLite leaves the order of rows that tie on the sort key open.
    - The ChromaDB collection is an oracle that either answers a query or
      raises; everything the Python code does with the answer is modelled.
    - [limit] and [offset] are natural numbers.
    - The [keywords], [relations] and [reminders] entries attached to every
      idea dict are never read by the retrieval code and are left out. *)

From Stdlib Require Import List Bool Arith ZArith QArith Qreduction Lia Lqa.
From Stdlib Require Import Ascii String Sorted Permutation.
From Stdlib Require Decimal DecimalString DecimalPos DecimalZ.
Import ListNotations.

Open Scope string_scope.
Open Scope Z_scope.
Open Scope Q_scope.
Open Scope nat_scope.
Open Scope list_scope.
Open Scope bool_scope.

(** ** Python floats *)

Definition fadd (a b : Q) : Q := Qred (a + b).
Definition fsub (a b : Q) : Q := Qred (a - b).
Definition fmul (a b : Q) : Q := Qred (a * b).
Definition of_int (n : nat) : Q := inject_Z (Z.of_nat n).

(** Python's [max(a, b)] keeps [a] unless [b > a]; [min(a, b)] keeps [a]
    unless [b < a]. *)
Definition py_max (a b : Q) : Q := if Qle_bool b a then a else b.
Definition py_min (a b : Q) : Q := if Qle_bool a b then a else b.

(** ** Python lists and exceptions *)

(** [l[a:b]] for [0 <= a <= b]. *)
Definition slice {A} (a b : nat) (l : list A) : list A := firstn (b - a) (skipn a l).

(** [list.sort] and [ORDER BY]: a stable insertion sort.  [before x y]
    says that [x] may stand in front of [y]; it holds on ties, so an element
    stays in front of the later elements it ties with. *)
Fixpoint insert_by {A} (before : A -> A -> bool) (x : A) (l : list A) : list A :=
  match l with
  | [] => [x]
  | y :: l' => if before x y then x :: l else y :: insert_by before x l'
  end.

Fixpoint stable_sort {A} (before : A -> A -> bool) (l : list A) : list A :=
  match l with
  | [] => []
  | x :: l' => insert_by before x (stable_sort before l')
  end.

(** A computation that returns a value or raises a Python exception. *)
Inductive exc (A : Type) : Type :=
| Return (a : A)
| Raise.
Arguments Return {A} a.
Arguments Raise {A}.

Definition bind {A B} (m : exc A) (k : A -> exc B) : exc B :=
  match m with
  | Return a => k a
  | Raise => Raise
  end.

(** [try: body except Exception: handler]. *)
Definition try_except {A} (body : exc A) (handler : A) : A :=
  match body with
  | Return a => a
  | Raise => handler
  end.

Notation "x <- m ;; k" := (bind m (fun x => k))
  (at level 61, m at next level, right associativity).

(** ** Text *)

Definition chars : Type := list ascii.

Definition lower_char (c : ascii) : ascii :=
  let n := nat_of_ascii c in
  if (65 <=? n) && (n <=? 90) then ascii_of_nat (n + 32) else c.

(** [str.lower()] *)
Definition lower (s : chars) : chars := map lower_char s.

Fixpoint starts_with (sub s : chars) : bool :=
  match sub, s with
  | [], _ => true
  | _ :: _, [] => false
  | a :: sub', b :: s' => Ascii.eqb a b && starts_with sub' s'
  end.

(** The scan of [str.count] for a non-empty [sub]: [skip] characters of the
    occurrence found last are still to be stepped over. *)
Fixpoint count_scan (sub : chars) (skip : nat) (s : chars) : nat :=
  match s with
  | [] => 0
  | _ :: s' =>
      match skip with
      | S k => count_scan sub k s'
      | O => if starts_with sub s
             then S (count_scan sub (List.length sub - 1) s')
             else count_scan sub 0 s'
      end
  end.

(** [s.count(sub)]: the number of non-overlapping occurrences, found left to
    right; the empty string occurs [len(s) + 1] times. *)
Definition count (s sub : chars) : nat :=
  match sub with
  | [] => S (List.length s)
  | _ :: _ => count_scan sub 0 s
  end.

(** SQLite's [text LIKE pattern] without [ESCAPE]: [%] stands for any run of
    characters, [_] for any one character, every other character for itself
    up to the case of ASCII letters. *)
Fixpoint like_match (pattern : chars) : chars -> bool :=
  match pattern with
  | [] => fun s => match s with [] => true | _ :: _ => false end
  | p :: pattern' =>
      if Ascii.eqb p "%" then
        fix any_run (s : chars) : bool :=
          like_match pattern' s
          || match s with [] => false | _ :: s' => any_run s' end
      else fun s =>
        match s with
        | [] => false
        | c :: s' =>
            (Ascii.eqb p "_" || Ascii.eqb (lower_char p) (lower_char c))
            && like_match pattern' s'
        end
  end.

(** [column LIKE ?] with the parameter [f"%{query}%"]; a NULL column gives
    NULL, which [WHERE] treats as false. *)
Definition like_query (query : string) (column : option string) : bool :=
  match column with
  | None => false
  | Some text =>
      like_match ("%"%char :: list_ascii_of_string query ++ ["%"%char])
                 (list_ascii_of_string text)
  end.

(** ** The notes store *)

Record Idea : Type := mkIdea {
  idea_id : Z;                  (* id INTEGER PRIMARY KEY *)
  content : string;             (* content TEXT NOT NULL *)
  title : option string;        (* title TEXT *)
  created_at : Z;               (* created_at TIMESTAMP NOT NULL *)
  is_archived : bool;
  is_favorite : bool
}.

Record Tag : Type := mkTag {
  tag_id : Z;
  tag_name : string
}.

Record Relation : Type := mkRelation {
  source_idea_id : Z;
  target_idea_id : Z;
  confidence : Q
}.

Record Database : Type := mkDatabase {
  Ideas : list Idea;
  Tags : list Tag;
  IdeaTags : list (Z * Z);      (* (idea_id, tag_id) *)
  Relations : list Relation
}.

(** The [filters] dict: a key that is absent is [None]. *)
Record Filters : Type := mkFilters {
  flt_is_archived : option bool;
  flt_is_favorite : option bool;
  flt_tag_ids : option (list Z)
}.

Definition no_filters : Filters := mkFilters None None None.

(** ** The vector index *)

(** The [where] dict handed to ChromaDB. *)
Record MetadataFilter : Type := mkMetadataFilter {
  where_is_archived : option bool;
  where_is_favorite : option bool
}.

(** The answer of [collection.query] for the one query text: [results["ids"][0]]
    ([[]] when [results["ids"]] is empty) and [results["distances"][0]] ([None]
    when [results["distances"]] is empty). *)
Record QueryResult : Type := mkQueryResult {
  res_ids : list Z;
  res_distances : option (list Q)
}.

Record Similar : Type := mkSimilar {
  sim_idea_id : Z;
  distance : option Q
}.

(** ** The search engine and its collaborators *)

Record SearchEngine : Type := mkSearchEngine {
  database : Database;
  is_ai_enabled : bool;
  is_offline_mode : bool;
  collection_query : string -> nat -> option MetadataFilter -> exc QueryResult
}.

(** An idea dict as [get_idea] builds it, and a search result: the same dict
    with its [relevance] and, after the hybrid merge, its [search_source]. *)
Record IdeaDict : Type := mkIdeaDict {
  row : Idea;
  tags : list Tag
}.

Inductive Source : Type := keyword | vector | both.

Record Hit : Type := mkHit {
  dict : IdeaDict;
  relevance : Q;
  search_source : option Source
}.

Definition hit_id (h : Hit) : Z := idea_id (row (dict h)).

Definition mem (x : Z) (l : list Z) : bool := existsb (Z.eqb x) l.

(** [enumerate(results["ids"][0])] in [search_similar_ideas]; an index past
    the end of [results["distances"][0]] raises [IndexError]. *)
Fixpoint enumerate_similar (i : nat) (ids : list Z) (distances : option (list Q))
  : exc (list Similar) :=
  match ids with
  | [] => Return []
  | idea :: ids' =>
      d <- match distances with
           | None => Return None
           | Some ds => match nth_error ds i with
                        | Some d => Return (Some d)
                        | None => Raise
                        end
           end ;;
      rest <- enumerate_similar (S i) ids' distances ;;
      Return (mkSimilar idea d :: rest)
  end.

Definition search_similar_ideas (self : SearchEngine) (query : string) (n_results : nat)
    (filter_metadata : option MetadataFilter) : exc (list Similar) :=
  results <- collection_query self query n_results filter_metadata ;;
  enumerate_similar 0 (res_ids results) (res_distances results).

(** [IdeaManager.get_idea_tags]: [Tags JOIN IdeaTags ... ORDER BY t.name]. *)
Definition get_idea_tags (self : SearchEngine) (id : Z) : list Tag :=
  stable_sort (fun t u => String.leb (tag_name t) (tag_name u))
    (flat_map (fun t =>
       map (fun _ => t)
         (filter (fun it => Z.eqb (snd it) (tag_id t) && Z.eqb (fst it) id)
                 (IdeaTags (database self))))
       (Tags (database self))).

(** [IdeaManager.get_idea]: the row with this id, with its tags attached. *)
Definition get_idea (self : SearchEngine) (id : Z) : option IdeaDict :=
  match find (fun i => Z.eqb (idea_id i) id) (Ideas (database self)) with
  | Some i => Some (mkIdeaDict i (get_idea_tags self id))
  | None => None
  end.

Definition _calculate_keyword_relevance (idea : Idea) (query : string) : Q :=
  let query_lower := lower (list_ascii_of_string query) in
  let content_lower := lower (list_ascii_of_string (content idea)) in
  let title_lower :=
    match title idea with
    | Some t => lower (list_ascii_of_string t)
    | None => []
    end in
  let content_count := count content_lower query_lower in
  let title_count := count title_lower query_lower in
  let score := fadd (fmul (of_int content_count) (1 # 10))
                    (fmul (of_int title_count) (1 # 2)) in
  py_min 1 score.

(** The [WHERE] clause that [_keyword_search] assembles. *)
Definition keyword_where (self : SearchEngine) (query : string) (filters : Filters)
    (i : Idea) : bool :=
  (like_query query (Some (content i)) || like_query query (title i))
  && match flt_is_archived filters with
     | Some b => Bool.eqb (is_archived i) b
     | None => true
     end
  && match flt_is_favorite filters with
     | Some b => Bool.eqb (is_favorite i) b
     | None => true
     end
  && match flt_tag_ids filters with
     | Some (t :: ts) =>
         existsb (fun it => Z.eqb (fst it) (idea_id i) && mem (snd it) (t :: ts))
                 (IdeaTags (database self))
     | _ => true
     end.

Definition by_created_at_desc (i j : Idea) : bool := (created_at j <=? created_at i)%Z.
Definition by_relevance_desc (h k : Hit) : bool := Qle_bool (relevance k) (relevance h).

Definition _keyword_search (self : SearchEngine) (query : string) (limit offset : nat)
    (filters : Filters) : list Hit :=
  let ideas :=
    firstn limit (skipn offset
      (stable_sort by_created_at_desc
         (filter (keyword_where self query filters) (Ideas (database self))))) in
  let ideas :=
    map (fun idea =>
           mkHit (mkIdeaDict idea (get_idea_tags self (idea_id idea)))
                 (_calculate_keyword_relevance idea query) None) ideas in
  stable_sort by_relevance_desc ideas.

(** [similar["distance"] or 0.0] *)
Definition distance_or_zero (d : option Q) : Q :=
  match d with
  | Some d => d
  | None => 0
  end.

(** One round of the loop of [_vector_search]: nothing is appended when the
    idea is gone from the store or lacks one of the requested tags. *)
Definition vector_hit (self : SearchEngine) (filters : Filters) (similar : Similar)
    : list Hit :=
  match get_idea self (sim_idea_id similar) with
  | None => []
  | Some idea =>
      let relevance := fsub 1 (distance_or_zero (distance similar)) in
      match flt_tag_ids filters with
      | Some (t :: ts) =>
          let idea_tag_ids := map tag_id (tags idea) in
          if forallb (fun t => mem t idea_tag_ids) (t :: ts)
          then [mkHit idea relevance None]
          else []
      | _ => [mkHit idea relevance None]
      end
  end.

Definition metadata_filter_of (filters : Filters) : option MetadataFilter :=
  match flt_is_archived filters, flt_is_favorite filters with
  | None, None => None
  | a, f => Some (mkMetadataFilter a f)
  end.

Definition _vector_search (self : SearchEngine) (query : string) (limit offset : nat)
    (filters : Filters) : list Hit :=
  if negb (is_ai_enabled self) || is_offline_mode self then
    _keyword_search self query limit offset filters
  else
    try_except
      (similar_ideas <- search_similar_ideas self query (limit + offset)
                          (metadata_filter_of filters) ;;
       let similar_ideas := slice offset (offset + limit) similar_ideas in
       Return (flat_map (vector_hit self filters) similar_ideas))
      (_keyword_search self query limit offset filters).

(** ** Hybrid merge *)

(** [merged_results]: a dict from idea id to idea dict, in insertion order. *)
Definition dict_get (d : list (Z * Hit)) (k : Z) : option Hit :=
  match find (fun kv => Z.eqb (fst kv) k) d with
  | Some kv => Some (snd kv)
  | None => None
  end.

(** [d[k] = v]: a key already present keeps its place. *)
Fixpoint dict_set (k : Z) (v : Hit) (d : list (Z * Hit)) : list (Z * Hit) :=
  match d with
  | [] => [(k, v)]
  | kv :: d' => if Z.eqb (fst kv) k then (k, v) :: d' else kv :: dict_set k v d'
  end.

Definition set_source (idea : Hit) (src : Source) : Hit :=
  mkHit (dict idea) (relevance idea) (Some src).

Definition add_keyword_result (merged_results : list (Z * Hit)) (idea : Hit)
    : list (Z * Hit) :=
  dict_set (hit_id idea) (set_source idea keyword) merged_results.

Definition add_vector_result (merged_results : list (Z * Hit)) (idea : Hit)
    : list (Z * Hit) :=
  match dict_get merged_results (hit_id idea) with
  | Some found =>
      dict_set (hit_id idea)
        (mkHit (dict found) (py_max (relevance found) (relevance idea)) (Some both))
        merged_results
  | None => dict_set (hit_id idea) (set_source idea vector) merged_results
  end.

(** The two loops of [_hybrid_search], then [list(merged_results.values())]. *)
Definition merge_results (keyword_results vector_results : list Hit) : list Hit :=
  map snd
    (fold_left add_vector_result vector_results
       (fold_left add_keyword_result keyword_results [])).

Definition _hybrid_search (self : SearchEngine) (query : string) (limit offset : nat)
    (filters : Filters) : list Hit :=
  if negb (is_ai_enabled self) || is_offline_mode self then
    _keyword_search self query limit offset filters
  else
    try_except
      (let keyword_results := _keyword_search self query limit 0 filters in
       let vector_results := _vector_search self query limit 0 filters in
       let results := merge_results keyword_results vector_results in
       let results := stable_sort by_relevance_desc results in
       Return (slice offset (offset + limit) results))
      (_keyword_search self query limit offset filters).

(** [SearchEngine.search]; [filters=None] is the empty dict. *)
Definition search (self : SearchEngine) (query search_type : string) (limit offset : nat)
    (filters : option Filters) : list Hit :=
  if String.eqb query "" then []
  else
    let filters := match filters with Some f => f | None => no_filters end in
    if String.eqb search_type "keyword" then _keyword_search self query limit offset filters
    else if String.eqb search_type "vector" then _vector_search self query limit offset filters
    else _hybrid_search self query limit offset filters.

(** ** Related ideas *)

(** An element of the list [get_related_ideas] returns: a table row, with its
    tags when the code attached them. *)
Record RelatedIdea : Type := mkRelatedIdea {
  rel_row : Idea;
  rel_tags : option (list Tag)
}.

Definition related_id (r : RelatedIdea) : Z := idea_id (rel_row r).

Definition with_tags (self : SearchEngine) (i : Idea) : RelatedIdea :=
  mkRelatedIdea i (Some (get_idea_tags self (idea_id i))).

(** A row as the relations query returns it, no tags attached. *)
Definition bare (i : Idea) : RelatedIdea := mkRelatedIdea i None.

Definition by_confidence_desc (a b : Idea * Relation) : bool :=
  Qle_bool (confidence (snd b)) (confidence (snd a)).

(** [Ideas i JOIN Relations r ON i.id = r.target_idea_id
     WHERE r.source_idea_id = ? ORDER BY r.confidence DESC LIMIT ?] *)
Definition related_from_relations (self : SearchEngine) (id : Z) (limit : nat)
    : list Idea :=
  firstn limit
    (map fst
       (stable_sort by_confidence_desc
          (flat_map (fun i =>
             map (fun r => (i, r))
               (filter (fun r => Z.eqb (idea_id i) (target_idea_id r)
                                 && Z.eqb (source_idea_id r) id)
                       (Relations (database self))))
             (Ideas (database self))))).

(** [COUNT(it.tag_id)] of the group of idea [i]: its [IdeaTags] rows whose tag
    is one of [tag_ids].  The primary key makes every group one [Ideas] row. *)
Definition tag_count (self : SearchEngine) (tag_ids : list Z) (i : Idea) : nat :=
  List.length
    (filter (fun it => Z.eqb (idea_id i) (fst it) && mem (snd it) tag_ids)
            (IdeaTags (database self))).

Definition by_tag_count_then_created_at (self : SearchEngine) (tag_ids : list Z)
    (i j : Idea) : bool :=
  (tag_count self tag_ids j <? tag_count self tag_ids i)
  || ((tag_count self tag_ids j =? tag_count self tag_ids i)
      && (created_at j <=? created_at i)%Z).

(** The rows of the tag-overlap query: ideas sharing a tag, other than [id]
    and than the ideas of [excluded]. *)
Definition tag_candidates (self : SearchEngine) (id : Z) (tag_ids excluded : list Z)
    : list Idea :=
  filter (fun i => (0 <? tag_count self tag_ids i)
                   && negb (Z.eqb (idea_id i) id)
                   && negb (mem (idea_id i) excluded))
         (Ideas (database self)).

(** [... ORDER BY tag_count DESC, i.created_at DESC LIMIT ?] *)
Definition tag_results (self : SearchEngine) (id : Z) (tag_ids excluded : list Z)
    (remaining : nat) : list Idea :=
  firstn remaining
    (stable_sort (by_tag_count_then_created_at self tag_ids)
       (tag_candidates self id tag_ids excluded)).

(** The vector tier: the neighbours other than the idea itself, then the
    ideas among them that the store still has. *)
Definition vector_related (self : SearchEngine) (id : Z) (remaining : nat)
    (similar_ideas : list Similar) : list RelatedIdea :=
  let similar_ideas :=
    firstn remaining
      (filter (fun similar => negb (Z.eqb (sim_idea_id similar) id)) similar_ideas) in
  flat_map (fun similar =>
              match get_idea self (sim_idea_id similar) with
              | Some related => [mkRelatedIdea (row related) (Some (tags related))]
              | None => []
              end) similar_ideas.

(** The tag tier, reached when the vector tier was skipped or raised. *)
Definition tag_tier (self : SearchEngine) (id : Z) (limit : nat)
    (from_relations : list Idea) : list RelatedIdea :=
  let remaining := limit - List.length from_relations in
  let idea_tags := get_idea_tags self id in
  match idea_tags with
  | [] => map bare from_relations
  | _ :: _ =>
      let tag_ids := map tag_id idea_tags in
      let tag_results :=
        tag_results self id tag_ids (map idea_id from_relations) remaining in
      firstn limit (map bare from_relations
                    ++ map (with_tags self) tag_results)
  end.

Definition get_related_ideas (self : SearchEngine) (id : Z) (limit : nat)
    : list RelatedIdea :=
  match get_idea self id with
  | None => []
  | Some idea =>
      let from_relations := related_from_relations self id limit in
      if limit <=? List.length from_relations then
        firstn limit (map (with_tags self) from_relations)
      else
        let remaining := limit - List.length from_relations in
        if is_ai_enabled self && negb (is_offline_mode self) then
          try_except
            (similar_ideas <- search_similar_ideas self (content (row idea))
                                (remaining + 1) None ;;
             let vector_results := vector_related self id remaining similar_ideas in
             Return (firstn limit (map bare from_relations
                                   ++ vector_results)))
            (tag_tier self id limit from_relations)
        else tag_tier self id limit from_relations
  end.

(** ** Embedding generator *)

(** [AIService.generate_embedding] answers [None] when the service is off or
    fails.  [_generate_fallback_embedding] normalises with a floating-point
    square root and walks a Python [set]; both are collaborators here. *)
Record EmbeddingGenerator : Type := mkEmbeddingGenerator {
  ai_service_generate_embedding : string -> option (list Q);
  _generate_fallback_embedding : string -> list Q
}.

Definition embedding_dim : nat := 1536.

Definition generate_embedding (self : EmbeddingGenerator) (text : string)
    : option (list Q) :=
  if String.eqb text "" then None
  else
    match ai_service_generate_embedding self text with
    | Some embedding => Some embedding
    | None => Some (_generate_fallback_embedding self text)
    end.

(** ** Shorthands used in the statements *)

(** [idea["title"].lower() if idea["title"] else ""] *)
Definition title_lower (i : Idea) : chars :=
  match title i with
  | Some t => lower (list_ascii_of_string t)
  | None => []
  end.

Definition content_lower (i : Idea) : chars := lower (list_ascii_of_string (content i)).

(** The dict that [_keyword_search] builds from a row. *)
Definition keyword_hit (self : SearchEngine) (query : string) (i : Idea) : Hit :=
  mkHit (mkIdeaDict i (get_idea_tags self (idea_id i)))
        (_calculate_keyword_relevance i query) None.

(** [merged_results.keys()] *)
Definition keys (d : list (Z * Hit)) : list Z := map fst d.

Definition hit_ids (l : list Hit) : list Z := map hit_id l.

(** ** The hybrid search as the specification words it *)

(** Both retrievers are granted [limit + offset] candidates, the union is
    sorted by score and the slice is taken last. *)
Definition hybrid_search_spec (self : SearchEngine) (query : string) (limit offset : nat)
    (filters : Filters) : list Hit :=
  let keyword_results := _keyword_search self query (limit + offset) 0 filters in
  let vector_results := _vector_search self query (limit + offset) 0 filters in
  slice offset (offset + limit)
    (stable_sort by_relevance_desc (merge_results keyword_results vector_results)).

(** ** Invariants of the collaborators *)

(** [id INTEGER PRIMARY KEY] *)
Definition primary_key (d : Database) : Prop := NoDup (map idea_id (Ideas d)).


Definition unit_distances (self : SearchEngine) : Prop :=
  forall query n filter_metadata results ds d,
    collection_query self query n filter_metadata = Return results ->
    res_distances results = Some ds -> In d ds -> (0 <= d /\ d <= 1)%Q.

(** A query free of the two [LIKE] wildcards. *)
Definition wildcard_free (query : string) : Prop :=
  forall c, In c (list_ascii_of_string query) -> c <> "%"%char /\ c <> "_"%char.

(** An ASCII character other than NUL. *)
Definition is_plain (c : ascii) : bool :=
  let n := nat_of_ascii c in (1 <=? n) && (n <=? 127).

(** Text on which SQLite's [LIKE] and Python's [str.lower] agree about
    case, and which no NUL cuts short. *)
Definition plain_ascii (text : string) : Prop :=
  forallb is_plain (list_ascii_of_string text) = true.

(** The two columns of an idea that the lexical search reads. *)
Definition plain_text (i : Idea) : Prop :=
  plain_ascii (content i)
  /\ match title i with
     | Some t => plain_ascii t
     | None => True
     end.

(** ** Sample stores *)

Definition offline_index : string -> nat -> option MetadataFilter -> exc QueryResult :=
  fun _ _ _ => Raise.

Definition rust_go_ideas : list Idea :=
  [ mkIdea 1 "ownership model" (Some "Rust") 100 false false;
    mkIdea 2 "goroutines" (Some "Go") 200 false false ].

Definition rust_go_store : Database := mkDatabase rust_go_ideas [] [] [].

(** AI switched off. *)
Definition rust_go_engine : SearchEngine :=
  mkSearchEngine rust_go_store false false offline_index.

(** AI switched on, the index unreachable. *)
Definition unreachable_engine : SearchEngine :=
  mkSearchEngine rust_go_store true false offline_index.

(** AI switched on; the index knows both ideas, idea 1 at distance 1/4 and
    idea 2 at distance 3/2. *)
Definition far_index : string -> nat -> option MetadataFilter -> exc QueryResult :=
  fun _ n _ => Return (mkQueryResult (firstn n [1; 2]%Z) (Some (firstn n [1 # 4; 3 # 2]%Q))).

Definition far_engine : SearchEngine :=
  mkSearchEngine rust_go_store true false far_index.

Definition near_index : string -> nat -> option MetadataFilter -> exc QueryResult :=
  fun _ n _ => Return (mkQueryResult (firstn n [1; 2]%Z) (Some (firstn n [1 # 4; 3 # 4]%Q))).

Definition near_engine : SearchEngine :=
  mkSearchEngine rust_go_store true false near_index.

(** The first result of the hybrid search for "model" over [near_engine]. *)
Definition near_model_hit : Hit :=
  mkHit (mkIdeaDict (mkIdea 1 "ownership model" (Some "Rust") 100 false false) [])
        (3 # 4) (Some both).

Definition apples_engine : SearchEngine :=
  mkSearchEngine
    (mkDatabase [mkIdea 1 "100 apples" (Some "Shopping") 100 false false] [] [] [])
    false false offline_index.

(** Five ideas, idea [k] created at time [k]; the older the idea, the more
    often its body says "a". *)
Definition five_ideas : list Idea :=
  [ mkIdea 1 "a a a a a" None 1 false false;
    mkIdea 2 "a a a a" None 2 false false;
    mkIdea 3 "a a a" None 3 false false;
    mkIdea 4 "a a" None 4 false false;
    mkIdea 5 "a" None 5 false false ].

Definition five_index : string -> nat -> option MetadataFilter -> exc QueryResult :=
  fun _ n _ =>
    Return (mkQueryResult (firstn n [1; 2; 3; 4; 5]%Z)
              (Some (firstn n [1; 1; 1; 1; 1]%Q))).

Definition five_engine : SearchEngine :=
  mkSearchEngine (mkDatabase five_ideas [] [] []) true false five_index.

(** Idea 1 carries tag 1 only, idea 2 carries tags 1 and 2. *)
Definition tagged_store : Database :=
  mkDatabase
    [ mkIdea 1 "rust ownership" (Some "Rust") 100 false false;
      mkIdea 2 "rust borrowing" (Some "Borrow") 200 false false ]
    [ mkTag 1 "lang"; mkTag 2 "memory" ]
    [ (1, 1); (2, 1); (2, 2) ]%Z
    [].

Definition tagged_index : string -> nat -> option MetadataFilter -> exc QueryResult :=
  fun _ n _ => Return (mkQueryResult (firstn n [1; 2]%Z) (Some (firstn n [1 # 4; 1 # 2]%Q))).

Definition tagged_engine : SearchEngine :=
  mkSearchEngine tagged_store true false tagged_index.

Definition both_tags : Filters := mkFilters None None (Some [1; 2]%Z).

(** Idea 5 has one curated relation, to idea 6; ideas 5, 6 and 7 share tag 1. *)
Definition related_store : Database :=
  mkDatabase
    [ mkIdea 5 "source" None 5 false false;
      mkIdea 6 "curated" None 6 false false;
      mkIdea 7 "neighbour" None 7 false false ]
    [ mkTag 1 "topic" ]
    [ (5, 1); (6, 1); (7, 1) ]%Z
    [ mkRelation 5 6 (9 # 10) ].

(** The index answers with ideas 6 and 7, nearest first. *)
Definition related_index : string -> nat -> option MetadataFilter -> exc QueryResult :=
  fun _ n _ => Return (mkQueryResult (firstn n [6; 7]%Z) (Some (firstn n [1 # 10; 2 # 10]%Q))).

Definition related_engine : SearchEngine :=
  mkSearchEngine related_store true false related_index.

(** The index is reachable and knows no idea. *)
Definition empty_index : string -> nat -> option MetadataFilter -> exc QueryResult :=
  fun _ _ _ => Return (mkQueryResult [] None).

Definition related_empty_index_engine : SearchEngine :=
  mkSearchEngine related_store true false empty_index.

Definition related_offline_engine : SearchEngine :=
  mkSearchEngine related_store true true related_index.

(** Idea 5 has the two curated relations of the scenario. *)
Definition curated_engine : SearchEngine :=
  mkSearchEngine
    (mkDatabase
       [ mkIdea 5 "source" None 5 false false;
         mkIdea 6 "strong" None 6 false false;
         mkIdea 7 "weak" None 7 false false ]
       [] []
       [ mkRelation 5 7 (4 # 10); mkRelation 5 6 (9 # 10) ])
    true false offline_index.

Definition sample_generator : EmbeddingGenerator :=
  mkEmbeddingGenerator (fun _ => None) (fun _ => repeat 0%Q embedding_dim).

(** ** More sample data *)

(** What the vector search over [tagged_engine] returns for idea 2. *)
Definition tagged_vector_hit : Hit :=
  mkHit (mkIdeaDict (mkIdea 2 "rust borrowing" (Some "Borrow") 200 false false)
                    [mkTag 1 "lang"; mkTag 2 "memory"])
        (1 # 2) None.

(** The answer of [tagged_index] as [search_similar_ideas] hands it on. *)
Definition tagged_similar : list Similar :=
  [mkSimilar 1 (Some (1 # 4)); mkSimilar 2 (Some (1 # 2))].

(** ** Embedding generator: the local fallback and the similarity *)

Definition fdiv (a b : Q) : Q := Qred (a / b).

(** [str.isspace] on ASCII: tab, line feed, vertical tab, form feed,
    carriage return, the four separators 28..31 and the space. *)
Definition is_space (c : ascii) : bool :=
  let n := nat_of_ascii c in
  ((9 <=? n) && (n <=? 13)) || ((28 <=? n) && (n <=? 32)).

(** The scan of [str.split()]: [word] is the word being read. *)
Fixpoint split_scan (word s : chars) : list chars :=
  match s with
  | [] => match word with [] => [] | _ :: _ => [word] end
  | c :: s' =>
      if is_space c then
        match word with
        | [] => split_scan [] s'
        | _ :: _ => word :: split_scan [] s'
        end
      else split_scan (word ++ [c]) s'
  end.

(** [s.split()]: the maximal runs of characters that are not whitespace. *)
Definition str_split (s : chars) : list chars := split_scan [] s.

Definition chars_eq_dec : forall a b : chars, {a = b} + {a <> b} :=
  list_eq_dec ascii_dec.

(** What the Python runtime decides and this model does not: the value of
    [np.linalg.norm], a floating-point square root, and the order in which a
    [set] of words is walked. *)
Record Runtime : Type := mkRuntime {
  np_linalg_norm : list Q -> Q;
  set_iter : list chars -> list chars
}.

Definition generate_fallback_embedding (rt : Runtime) (text : string) : list Q :=
  let words := str_split (lower (list_ascii_of_string text)) in
  let word_set := set_iter rt words in
  let vector := map (fun word => of_int (count_occ chars_eq_dec words word)) word_set in
  let norm := np_linalg_norm rt vector in
  let vector :=
    if negb (Qle_bool norm 0) then map (fun v => fdiv v norm) vector else vector in
  if List.length vector <? embedding_dim
  then vector ++ repeat 0%Q (embedding_dim - List.length vector)
  else firstn embedding_dim vector.

(** An [EmbeddingGenerator] whose fallback is the one above. *)
Definition local_generator (rt : Runtime) (ai_service : string -> option (list Q))
    : EmbeddingGenerator :=
  mkEmbeddingGenerator ai_service (generate_fallback_embedding rt).

(** [np.dot] of two one-dimensional arrays of one length. *)
Definition np_dot (a b : list Q) : Q :=
  fold_left (fun acc xy => fadd acc (fmul (fst xy) (snd xy))) (combine a b) 0%Q.

(** [calculate_similarity]; [np.dot] raises [ValueError] when the lengths
    differ. *)
Definition calculate_similarity (rt : Runtime) (embedding1 embedding2 : option (list Q))
    : exc Q :=
  match embedding1, embedding2 with
  | Some vec1, Some vec2 =>
      if List.length vec1 =? List.length vec2 then
        let dot_product := np_dot vec1 vec2 in
        let norm1 := np_linalg_norm rt vec1 in
        let norm2 := np_linalg_norm rt vec2 in
        if Qeq_bool norm1 0 || Qeq_bool norm2 0 then Return 0%Q
        else Return (fdiv dot_product (fmul norm1 norm2))
      else Raise
  | _, _ => Return 0%Q
  end.

Definition batch_generate_embeddings (self : EmbeddingGenerator) (texts : list string)
    : list (option (list Q)) :=
  match texts with
  | [] => []
  | _ :: _ => map (generate_embedding self) texts
  end.

(** A runtime for the examples: sets are walked in order of first
    occurrence and every norm is 2. *)
Definition sample_runtime : Runtime :=
  mkRuntime (fun _ => 2%Q) (nodup chars_eq_dec).

(** ** Titles ([IdeaManager._generate_title]) *)

Fixpoint lstrip (s : chars) : chars :=
  match s with
  | [] => []
  | c :: s' => if is_space c then lstrip s' else s
  end.

Definition rstrip (s : chars) : chars := rev (lstrip (rev s)).

(** [s.strip()] *)
Definition strip (s : chars) : chars := rstrip (lstrip s).

(** The first 20 characters, stripped, and "..." when the content is
    longer than 20 characters. *)
Definition _generate_title (content : string) : string :=
  let content := list_ascii_of_string content in
  let title := strip (firstn 20 content) in
  let title :=
    if 20 <? List.length content then title ++ list_ascii_of_string "..." else title in
  string_of_list_ascii title.

(** ** Python dicts in general *)

(** A [dict] as the list of its items in insertion order. *)
Section PyDict.
Context {K V : Type}.
Variable key_eq_dec : forall a b : K, {a = b} + {a <> b}.

(** [d.get(k)] *)
Fixpoint py_get (d : list (K * V)) (k : K) : option V :=
  match d with
  | [] => None
  | (k', v) :: d' => if key_eq_dec k' k then Some v else py_get d' k
  end.

(** [d[k] = v]: a key already present keeps its place. *)
Fixpoint py_set (k : K) (v : V) (d : list (K * V)) : list (K * V) :=
  match d with
  | [] => [(k, v)]
  | (k', v') :: d' =>
      if key_eq_dec k' k then (k, v) :: d' else (k', v') :: py_set k v d'
  end.

(** [del d[k]] for a key that may be absent. *)
Fixpoint py_del (k : K) (d : list (K * V)) : list (K * V) :=
  match d with
  | [] => []
  | (k', v') :: d' => if key_eq_dec k' k then d' else (k', v') :: py_del k d'
  end.
End PyDict.

(** ** The fallback analysis ([IdeaAnalyzer._analyze_idea_fallback]) *)

(** [s.split(sep)] for a separator of one character. *)
Fixpoint split_on (sep : ascii) (s : chars) : list chars :=
  match s with
  | [] => [[]]
  | c :: s' =>
      if Ascii.eqb c sep then [] :: split_on sep s'
      else match split_on sep s' with
           | [] => [[c]]
           | w :: ws => (c :: w) :: ws
           end
  end.

Definition newline : ascii := "010"%char.

(** One round of the loop that fills [word_freq]. *)
Definition count_word (word_freq : list (chars * nat)) (word : chars)
    : list (chars * nat) :=
  if 2 <? List.length word then
    py_set chars_eq_dec word
      (match py_get chars_eq_dec word_freq word with Some n => n | None => 0 end + 1)
      word_freq
  else word_freq.

Definition by_frequency_desc (a b : chars * nat) : bool := snd b <=? snd a.

Record Analysis : Type := mkAnalysis {
  an_title : chars;
  an_summary : chars;
  an_tags : list chars
}.

Definition _analyze_idea_fallback (content : string) : Analysis :=
  let content := list_ascii_of_string content in
  let lines := split_on newline (strip content) in
  let title := match lines with l0 :: _ => firstn 20 l0 | [] => [] end in
  let summary := if 100 <? List.length content then firstn 100 content else content in
  let words := str_split (lower content) in
  let word_freq := fold_left count_word words [] in
  let sorted_words := stable_sort by_frequency_desc word_freq in
  let tags := map fst (firstn 5 sorted_words) in
  mkAnalysis title summary tags.

(** The count that [word_freq] holds for a word, 0 for a word it lacks. *)
Definition freq_of (word_freq : list (chars * nat)) (word : chars) : nat :=
  match py_get chars_eq_dec word_freq word with
  | Some n => n
  | None => 0
  end.

(** ** Keyword embeddings ([VectorDBManager]) *)

(** [try: for x in l: f(x)]: the results, or the first exception. *)
Fixpoint traverse {A B} (f : A -> exc B) (l : list A) : exc (list B) :=
  match l with
  | [] => Return []
  | a :: l' => b <- f a ;; bs <- traverse f l' ;; Return (b :: bs)
  end.

(** [str(n)] for an [int]. *)
Definition py_str (n : Z) : chars :=
  list_ascii_of_string (DecimalString.NilEmpty.string_of_int (Z.to_int n)).

Definition is_digit (c : ascii) : bool :=
  let n := nat_of_ascii c in (48 <=? n) && (n <=? 57).

(** The digits of a literal in which single underscores may separate
    digits; [after_digit] says that the character before was a digit. *)
Fixpoint literal_digits (after_digit : bool) (s : chars) : option chars :=
  match s with
  | [] => if after_digit then Some [] else None
  | c :: s' =>
      if is_digit c then option_map (cons c) (literal_digits true s')
      else if Ascii.eqb c "_" && after_digit then literal_digits false s'
      else None
  end.

Definition unsigned_literal (s : chars) : exc Z :=
  match literal_digits false s with
  | Some digits =>
      match DecimalString.NilEmpty.uint_of_string (string_of_list_ascii digits) with
      | Some d => Return (Z.of_uint d)
      | None => Raise
      end
  | None => Raise
  end.

(** [int(s)] for a [str]: surrounding whitespace, an optional sign, decimal
    digits; [ValueError] otherwise. *)
Definition py_int (s : chars) : exc Z :=
  match strip s with
  | c :: r =>
      if Ascii.eqb c "-" then n <- unsigned_literal r ;; Return (- n)%Z
      else if Ascii.eqb c "+" then unsigned_literal r
      else unsigned_literal (c :: r)
  | [] => Raise
  end.

(** [sep.join(l)] for a separator of one character. *)
Fixpoint join (sep : ascii) (l : list chars) : chars :=
  match l with
  | [] => []
  | [x] => x
  | x :: l' => x ++ sep :: join sep l'
  end.

(** The metadata of a keyword: a key that is absent is [None]. *)
Record KeywordMetadata : Type := mkKeywordMetadata {
  md_keyword : option string;
  md_idea_ids : option string;
  md_weight : option Q
}.

(** The arguments of [collection.add] and [collection.update]. *)
Record Upsert : Type := mkUpsert {
  up_ids : list string;
  up_documents : list string;
  up_metadatas : list KeywordMetadata
}.

(** What [add_keyword_embedding] and [update_keyword_embedding] hand to the
    collection. *)
Definition add_keyword_embedding (keyword : string) (idea_ids : list Z) (weight : Q)
    : Upsert :=
  let metadata :=
    mkKeywordMetadata (Some keyword)
      (Some (string_of_list_ascii (join "," (map py_str idea_ids))))
      (Some weight) in
  mkUpsert [keyword] [keyword] [metadata].

(** The answer of [collection.get]; the metadata of an entry is [None] when
    the collection holds none for it. *)
Record GetResult : Type := mkGetResult {
  got_ids : list string;
  got_metadatas : list (option KeywordMetadata);
  got_documents : list string;
  got_embeddings : list (list Q)
}.

Record KeywordEmbedding : Type := mkKeywordEmbedding {
  ke_keyword : string;
  ke_idea_ids : list Z;
  ke_weight : Q;
  ke_document : option string;
  ke_embedding : option (list Q)
}.

(** [get_keyword_embedding]; [collection_get] is [collection.get(ids=[keyword])]. *)
Definition get_keyword_embedding (collection_get : string -> exc GetResult)
    (keyword : string) : exc (option KeywordEmbedding) :=
  result <- collection_get keyword ;;
  match got_ids result with
  | id0 :: _ =>
      let metadata :=
        match got_metadatas result with
        | m :: _ => m
        | [] => None
        end in
      idea_ids <-
        match metadata with
        | Some (mkKeywordMetadata _ (Some ids) _) =>
            traverse py_int (split_on "," (list_ascii_of_string ids))
        | _ => Return []
        end ;;
      let weight :=
        match metadata with
        | Some (mkKeywordMetadata _ _ (Some w)) => w
        | _ => 1%Q
        end in
      Return (Some (mkKeywordEmbedding id0 idea_ids weight
                      (hd_error (got_documents result))
                      (hd_error (got_embeddings result))))
  | [] => Return None
  end.

(** A collection that holds what one [add] call stored, and answers with it. *)
Definition collection_after (call : Upsert) (documents : list string)
    (embeddings : list (list Q)) : string -> exc GetResult :=
  fun _ => Return (mkGetResult (up_ids call) (map Some (up_metadatas call))
                     documents embeddings).

(** ** Tag suggestions ([SearchEngine.suggest_tags]) *)

Definition by_name (t u : Tag) : bool := String.leb (tag_name t) (tag_name u).

(** [SELECT * FROM Tags WHERE name LIKE ? ORDER BY name LIMIT ?], and
    nothing for the empty query. *)
Definition suggest_tags (self : SearchEngine) (query : string) (limit : nat) : list Tag :=
  if String.eqb query "" then []
  else
    firstn limit
      (stable_sort by_name
         (filter (fun t => like_query query (Some (tag_name t)))
                 (Tags (database self)))).

Definition language_tags_engine : SearchEngine :=
  mkSearchEngine
    (mkDatabase []
       [ mkTag 1 "rust"; mkTag 2 "Trust"; mkTag 3 "go"; mkTag 4 "crust" ] [] [])
    false false offline_index.

(** ** Configuration ([ConfigManager]) *)

(** The values a configuration file holds under a key. *)
Inductive Value : Type :=
| VBool (b : bool)
| VInt (n : Z)
| VFloat (x : Q)
| VStr (s : string)
| VNone.

(** Python's truth value of a configuration value. *)
Definition truthy (v : Value) : bool :=
  match v with
  | VBool b => b
  | VInt n => negb (Z.eqb n 0)
  | VFloat x => negb (Qeq_bool x 0)
  | VStr s => negb (String.eqb s "")
  | VNone => false
  end.

Module ConfigManager.

(** [self.config]: sections of keys.  The file it is saved to is not
    modelled: a failed write is swallowed and leaves the dict as it is. *)
Definition t : Type := list (string * list (string * Value)).

(** [self.config[section][key]], the default on [KeyError]. *)
Definition get (config : t) (section key : string) (default : Value) : Value :=
  match py_get string_dec config section with
  | Some keys =>
      match py_get string_dec keys key with
      | Some v => v
      | None => default
      end
  | None => default
  end.

Definition set (config : t) (section key : string) (value : Value) : t :=
  let config :=
    match py_get string_dec config section with
    | Some _ => config
    | None => py_set string_dec section [] config
    end in
  match py_get string_dec config section with
  | Some keys => py_set string_dec section (py_set string_dec key value keys) config
  | None => config
  end.

(** [self.config.get(section, {})] *)
Definition get_section (config : t) (section : string) : list (string * Value) :=
  match py_get string_dec config section with
  | Some keys => keys
  | None => []
  end.

Definition set_section (config : t) (section : string) (values : list (string * Value)) : t :=
  py_set string_dec section values config.

Definition is_ai_enabled (config : t) : Value := get config "ai" "enabled" (VBool false).
Definition is_offline_mode (config : t) : Value :=
  get config "ai" "offline_mode" (VBool false).
Definition is_first_run (config : t) : Value := get config "general" "first_run" (VBool true).
Definition set_first_run_completed (config : t) : t :=
  set config "general" "first_run" (VBool false).

End ConfigManager.

(** The search engine as [__init__] builds it, reading the two AI switches
    from the configuration. *)
Definition engine_of (config : ConfigManager.t) (db : Database)
    (index : string -> nat -> option MetadataFilter -> exc QueryResult) : SearchEngine :=
  mkSearchEngine db
    (truthy (ConfigManager.is_ai_enabled config))
    (truthy (ConfigManager.is_offline_mode config))
    index.

(** ** Events ([EventSystem]) *)

Module EventSystem.

(** A callback is known by its identity; what it does when called is its
    own business and, since [publish] swallows its exceptions, does not
    reach the event system unless the callback calls back into it, which is
    not modelled. *)
Definition Callback : Type := nat.

Record t (D : Type) : Type := mk {
  _subscribers : list (string * list Callback);
  _event_history : list (string * D)
}.
Arguments mk {D} _ _.
Arguments _subscribers {D} _.
Arguments _event_history {D} _.

Definition _max_history_size : nat := 100.

(** [__init__] *)
Definition new {D : Type} : t D := mk [] [].

Definition subscribe {D : Type} (self : t D) (event_type : string) (callback : Callback)
    : t D :=
  let subscribers :=
    match py_get string_dec (_subscribers self) event_type with
    | Some _ => _subscribers self
    | None => py_set string_dec event_type [] (_subscribers self)
    end in
  match py_get string_dec subscribers event_type with
  | Some callbacks =>
      mk (py_set string_dec event_type (callbacks ++ [callback]) subscribers)
         (_event_history self)
  | None => self
  end.

(** [list.remove(x)]: the first occurrence goes. *)
Fixpoint remove_first (callback : Callback) (l : list Callback) : list Callback :=
  match l with
  | [] => []
  | x :: l' => if Nat.eqb x callback then l' else x :: remove_first callback l'
  end.

Definition unsubscribe {D : Type} (self : t D) (event_type : string) (callback : Callback)
    : t D :=
  match py_get string_dec (_subscribers self) event_type with
  | Some callbacks =>
      if existsb (Nat.eqb callback) callbacks then
        match remove_first callback callbacks with
        | [] => mk (py_del string_dec event_type (_subscribers self)) (_event_history self)
        | c :: cs =>
            mk (py_set string_dec event_type (c :: cs) (_subscribers self))
               (_event_history self)
        end
      else self
  | None => self
  end.

(** [publish]: the event system afterwards and the calls made, in order. *)
Definition publish {D : Type} (self : t D) (event_type : string) (data : D)
    : t D * list (Callback * D) :=
  let history := py_set string_dec event_type data (_event_history self) in
  let history :=
    if _max_history_size <? List.length history then
      match history with
      | (oldest_event, _) :: _ => py_del string_dec oldest_event history
      | [] => history
      end
    else history in
  (mk (_subscribers self) history,
   match py_get string_dec (_subscribers self) event_type with
   | Some callbacks => map (fun callback => (callback, data)) callbacks
   | None => []
   end).

Definition get_last_event_data {D : Type} (self : t D) (event_type : string) : option D :=
  py_get string_dec (_event_history self) event_type.

Definition clear_history {D : Type} (self : t D) : t D := mk (_subscribers self) [].

Definition has_subscribers {D : Type} (self : t D) (event_type : string) : bool :=
  match py_get string_dec (_subscribers self) event_type with
  | Some (_ :: _) => true
  | _ => false
  end.

(** The callbacks [publish] would call for an event type. *)
Definition subscribers_of {D : Type} (self : t D) (event_type : string) : list Callback :=
  match py_get string_dec (_subscribers self) event_type with
  | Some callbacks => callbacks
  | None => []
  end.

(** A call of one of the methods that change the event system. *)
Inductive call (D : Type) : Type :=
| Subscribe (event_type : string) (callback : Callback)
| Unsubscribe (event_type : string) (callback : Callback)
| Publish (event_type : string) (data : D)
| ClearHistory.
Arguments Subscribe {D} _ _.
Arguments Unsubscribe {D} _ _.
Arguments Publish {D} _ _.
Arguments ClearHistory {D}.

Definition step {D : Type} (self : t D) (c : call D) : t D :=
  match c with
  | Subscribe e cb => subscribe self e cb
  | Unsubscribe e cb => unsubscribe self e cb
  | Publish e d => fst (publish self e d)
  | ClearHistory => clear_history self
  end.

(** The event system after a sequence of calls on a new one. *)
Definition run {D : Type} (calls : list (call D)) : t D := fold_left step calls new.

End EventSystem.

(** * Properties *)

(** ** The sample stores at work *)

Example count_skips_overlaps :
  count (list_ascii_of_string "aaaa") (list_ascii_of_string "aa") = 2.
Proof. reflexivity. Qed.

Example like_folds_case : like_query "MODEL" (Some "ownership model") = true.
Proof. reflexivity. Qed.

Example like_underscore_is_a_wildcard : like_query "a_c" (Some "xxabcxx") = true.
Proof. reflexivity. Qed.

Example like_rejects_goroutines : like_query "model" (Some "goroutines") = false.
Proof. reflexivity. Qed.

(** Two curated relations fill [limit = 2]: the stronger relation first. *)
Example curated_relations_fill_the_limit :
  map related_id (get_related_ideas curated_engine 5 2) = [6; 7]%Z.
Proof. vm_compute. reflexivity. Qed.

(** ** Lists: slices and the stable sort *)

Section ListFacts.
Context {A : Type}.

Lemma In_firstn (n : nat) (l : list A) (x : A) : In x (firstn n l) -> In x l.
Proof.
  revert l; induction n as [|n IH]; intros [|y l]; simpl; try tauto.
  intros [->|H]; auto.
Qed.

Lemma In_skipn (n : nat) (l : list A) (x : A) : In x (skipn n l) -> In x l.
Proof.
  revert l; induction n as [|n IH]; intros [|y l]; simpl; try tauto.
  intros H; right; apply IH, H.
Qed.

Lemma In_slice (a b : nat) (l : list A) (x : A) : In x (slice a b l) -> In x l.
Proof. unfold slice; intros H; eapply In_skipn, In_firstn, H. Qed.

Variable before : A -> A -> bool.

Lemma insert_by_perm (x : A) (l : list A) : Permutation (x :: l) (insert_by before x l).
Proof.
  induction l as [|y l IH]; simpl; auto.
  destruct (before x y); auto.
  etransitivity; [apply perm_swap|]. constructor. exact IH.
Qed.

Lemma stable_sort_perm (l : list A) : Permutation l (stable_sort before l).
Proof.
  induction l as [|x l IH]; simpl; auto.
  etransitivity; [|apply insert_by_perm]. constructor. exact IH.
Qed.

Lemma In_stable_sort (l : list A) (x : A) : In x (stable_sort before l) <-> In x l.
Proof.
  split; apply Permutation_in; [symmetry|]; apply stable_sort_perm.
Qed.

Lemma length_stable_sort (l : list A) : List.length (stable_sort before l) = List.length l.
Proof. symmetry; apply Permutation_length, stable_sort_perm. Qed.

Hypothesis before_total : forall x y, before x y = true \/ before y x = true.
Hypothesis before_trans :
  forall x y z, before x y = true -> before y z = true -> before x z = true.

Lemma insert_by_sorted (x : A) (l : list A) :
  StronglySorted (fun a b => before a b = true) l ->
  StronglySorted (fun a b => before a b = true) (insert_by before x l).
Proof.
  induction 1 as [|y l Hs IH Hall]; simpl.
  - repeat constructor.
  - destruct (before x y) eqn:E.
    + constructor; [constructor; assumption|].
      constructor; [exact E|].
      eapply Forall_impl; [|exact Hall]. intros z Hz. eapply before_trans; eauto.
    + constructor; [exact IH|].
      assert (Hyx : before y x = true) by (destruct (before_total x y); congruence).
      eapply Permutation_Forall; [apply insert_by_perm|].
      constructor; assumption.
Qed.

Lemma stable_sort_sorted (l : list A) :
  StronglySorted (fun a b => before a b = true) (stable_sort before l).
Proof.
  induction l as [|x l IH]; simpl; [constructor|]. apply insert_by_sorted, IH.
Qed.
End ListFacts.

Lemma mem_In (x : Z) (l : list Z) : mem x l = true <-> In x l.
Proof.
  unfold mem. rewrite existsb_exists. split.
  - intros (y & Hy & E). apply Z.eqb_eq in E. subst. exact Hy.
  - intros H. exists x. split; [exact H|apply Z.eqb_refl].
Qed.

(** ** Floats *)

Lemma py_max_cases (a b : Q) :
  (py_max a b = a /\ (b <= a)%Q) \/ (py_max a b = b /\ (a < b)%Q).
Proof.
  unfold py_max. destruct (Qle_bool b a) eqn:E.
  - left; split; [reflexivity|]. apply Qle_bool_iff, E.
  - right; split; [reflexivity|]. apply Qnot_le_lt. intros H.
    apply Qle_bool_iff in H. congruence.
Qed.


Lemma py_min_one_bounds (s : Q) : (0 <= s)%Q -> (0 <= py_min 1 s /\ py_min 1 s <= 1)%Q.
Proof.
  intros Hs. unfold py_min. destruct (Qle_bool 1 s) eqn:E.
  - split; [discriminate|apply Qle_refl].
  - split; [exact Hs|]. apply Qlt_le_weak, Qnot_le_lt. intros H.
    apply Qle_bool_iff in H. congruence.
Qed.

Lemma py_min_one_pos (s : Q) : (0 < s)%Q -> (0 < py_min 1 s)%Q.
Proof.
  intros Hs. unfold py_min. destruct (Qle_bool 1 s); [reflexivity|exact Hs].
Qed.

Lemma of_int_nonneg (n : nat) : (0 <= of_int n)%Q.
Proof. unfold of_int, Qle; simpl. lia. Qed.

Lemma of_int_pos (n : nat) : 1 <= n -> (0 < of_int n)%Q.
Proof. unfold of_int, Qlt; simpl. lia. Qed.

Lemma score_nonneg (c t : nat) :
  (0 <= fadd (fmul (of_int c) (1 # 10)) (fmul (of_int t) (1 # 2)))%Q.
Proof.
  unfold fadd, fmul. rewrite !Qred_correct.
  pose proof (of_int_nonneg c) as Hc. pose proof (of_int_nonneg t) as Ht.
  apply (Qplus_le_compat 0 _ 0); apply Qmult_le_0_compat; auto; discriminate.
Qed.

Lemma score_pos (c t : nat) :
  1 <= c \/ 1 <= t ->
  (0 < fadd (fmul (of_int c) (1 # 10)) (fmul (of_int t) (1 # 2)))%Q.
Proof.
  intros H. unfold fadd, fmul. rewrite !Qred_correct.
  pose proof (of_int_nonneg c) as Hc. pose proof (of_int_nonneg t) as Ht.
  destruct H as [H|H]; apply of_int_pos in H.
  - apply (Qplus_lt_le_compat 0 _ 0).
    + apply Qmult_lt_0_compat; [exact H|reflexivity].
    + apply Qmult_le_0_compat; [exact Ht|discriminate].
  - rewrite Qplus_comm. apply (Qplus_lt_le_compat 0 _ 0).
    + apply Qmult_lt_0_compat; [exact H|reflexivity].
    + apply Qmult_le_0_compat; [exact Hc|discriminate].
Qed.

(** ** Text: [LIKE] against [str.count] *)

Lemma lower_app (s t : chars) : lower (s ++ t) = lower s ++ lower t.
Proof. apply map_app. Qed.

Lemma like_any_run (pattern s : chars) :
  like_match ("%"%char :: pattern) s = true ->
  exists s1 s2, s = s1 ++ s2 /\ like_match pattern s2 = true.
Proof.
  induction s as [|c s IH]; intros H.
  - exists [], []. split; [reflexivity|].
    simpl in H. rewrite orb_false_r in H. exact H.
  - change (like_match pattern (c :: s) || like_match ("%"%char :: pattern) s = true) in H.
    apply orb_true_iff in H. destruct H as [H|H].
    + exists [], (c :: s). auto.
    + destruct (IH H) as (s1 & s2 & -> & H2). exists (c :: s1), s2. auto.
Qed.

Lemma like_literal_prefix (q s : chars) :
  (forall c, In c q -> c <> "%"%char /\ c <> "_"%char) ->
  like_match (q ++ ["%"%char]) s = true ->
  starts_with (lower q) (lower s) = true.
Proof.
  revert s. induction q as [|p q IH]; intros s Hq H; [reflexivity|].
  destruct (Hq p (or_introl eq_refl)) as [Hp1 Hp2].
  apply Ascii.eqb_neq in Hp1, Hp2.
  simpl in H. rewrite Hp1 in H. destruct s as [|c s]; [discriminate|].
  rewrite Hp2 in H. simpl in H. apply andb_true_iff in H. destruct H as [H1 H2].
  simpl. rewrite H1. simpl. apply IH; [|exact H2].
  intros d Hd. apply Hq. right. exact Hd.
Qed.

Lemma starts_with_nonempty (sub s : chars) :
  sub <> [] -> starts_with sub s = true -> s <> [].
Proof. destruct sub, s; simpl; congruence. Qed.

Lemma count_scan_occurs (sub s1 s2 : chars) :
  sub <> [] -> starts_with sub s2 = true -> 1 <= count_scan sub 0 (s1 ++ s2).
Proof.
  intros Hsub H. induction s1 as [|c s1 IH]; simpl.
  - destruct s2 as [|c s2]; [exfalso; eapply starts_with_nonempty; eauto|].
    simpl count_scan. rewrite H. lia.
  - destruct (starts_with sub (c :: s1 ++ s2)); [lia|exact IH].
Qed.

Lemma like_implies_count (q text : chars) :
  (forall c, In c q -> c <> "%"%char /\ c <> "_"%char) ->
  like_match ("%"%char :: q ++ ["%"%char]) text = true ->
  1 <= count (lower text) (lower q).
Proof.
  intros Hq H. apply like_any_run in H. destruct H as (s1 & s2 & -> & H).
  apply like_literal_prefix in H; [|exact Hq].
  unfold count. destruct (lower q) as [|a l] eqn:E; [lia|].
  rewrite lower_app. apply count_scan_occurs; [discriminate|exact H].
Qed.

(** ** The lexical retriever *)

Lemma keyword_search_inv (self : SearchEngine) (query : string) (limit offset : nat)
    (filters : Filters) (h : Hit) :
  In h (_keyword_search self query limit offset filters) ->
  exists i, In i (Ideas (database self)) /\ keyword_where self query filters i = true
            /\ h = keyword_hit self query i.
Proof.
  unfold _keyword_search. intros H.
  apply In_stable_sort, in_map_iff in H. destruct H as (i & <- & H).
  apply In_firstn, In_skipn, In_stable_sort, filter_In in H.
  exists i. tauto.
Qed.

Lemma keyword_relevance_bounds (i : Idea) (query : string) :
  (0 <= _calculate_keyword_relevance i query /\ _calculate_keyword_relevance i query <= 1)%Q.
Proof. apply py_min_one_bounds, score_nonneg. Qed.

Lemma keyword_where_like (self : SearchEngine) (query : string) (filters : Filters)
    (i : Idea) :
  keyword_where self query filters i = true ->
  like_query query (Some (content i)) = true \/ like_query query (title i) = true.
Proof.
  unfold keyword_where. intros H.
  repeat (apply andb_true_iff in H; destruct H as [H _]).
  apply orb_true_iff, H.
Qed.

Lemma like_query_title_count (query : string) (i : Idea) :
  wildcard_free query -> like_query query (title i) = true ->
  1 <= count (title_lower i) (lower (list_ascii_of_string query)).
Proof.
  unfold like_query, title_lower. intros Hq H.
  destruct (title i); [|discriminate]. apply like_implies_count; assumption.
Qed.

(** C4 (amended).  Every result of the lexical search is a stored idea
    whose score is [min(1.0, count(body) * 0.1 + count(title) * 0.5)],
    counted on the lower-cased texts.  When the query holds neither of the
    [LIKE] wildcards [%] and [_], and the query and the idea's title and
    body are ASCII text without NUL, that score is positive: no zero-score
    candidate is returned.  In the store of the scenario the search for
    "model" with limit 10 returns idea 1 with score 0.1 and nothing else. *)
Theorem keyword_search_scores_positive :
  (forall (self : SearchEngine) (query : string) (limit offset : nat) (filters : Filters)
          (h : Hit),
     In h (_keyword_search self query limit offset filters) ->
       In (row (dict h)) (Ideas (database self))
       /\ relevance h =
            py_min 1
              (fadd (fmul (of_int (count (content_lower (row (dict h)))
                                        (lower (list_ascii_of_string query)))) (1 # 10))
                    (fmul (of_int (count (title_lower (row (dict h)))
                                        (lower (list_ascii_of_string query)))) (1 # 2)))
       /\ (wildcard_free query -> plain_ascii query -> plain_text (row (dict h)) ->
           (0 < relevance h)%Q))
  /\ _keyword_search rust_go_engine "model" 10 0 no_filters
     = [ mkHit (mkIdeaDict (mkIdea 1 "ownership model" (Some "Rust") 100 false false) [])
               (1 # 10) None ].
Proof.
  split; [|reflexivity].
  intros self query limit offset filters h H.
  apply keyword_search_inv in H. destruct H as (i & Hi & Hw & ->). simpl.
  split; [exact Hi|]. split; [reflexivity|].
  intros Hq _ _. apply py_min_one_pos, score_pos.
  destruct (keyword_where_like _ _ _ _ Hw) as [H|H].
  - left. apply like_implies_count; [exact Hq|exact H].
  - right. apply like_query_title_count; assumption.
Qed.

Lemma wildcard_free_model : wildcard_free "model".
Proof.
  intros c H. simpl in H.
  repeat (destruct H as [<-|H]; [split; discriminate|]). contradiction.
Defined.

Lemma keyword_search_scores_positive_witness :
  wildcard_free "model" /\ plain_ascii "model"
  /\ plain_text (mkIdea 1 "ownership model" (Some "Rust") 100 false false)
  /\ (0 < relevance (keyword_hit rust_go_engine "model"
                       (mkIdea 1 "ownership model" (Some "Rust") 100 false false)))%Q.
Proof.
  split; [exact wildcard_free_model|]. split; [reflexivity|].
  split; [split; reflexivity|].
  apply (proj2 (proj2 (proj1 keyword_search_scores_positive rust_go_engine "model" 10 0
                         no_filters
                         (keyword_hit rust_go_engine "model"
                            (mkIdea 1 "ownership model" (Some "Rust") 100 false false))
                         (or_introl eq_refl)))).
  - exact wildcard_free_model.
  - reflexivity.
  - split; reflexivity.
Defined.

(** C4 as stated fails: the search for "100%" returns the idea whose body is
    "100 apples", with score 0. *)
Lemma keyword_search_returns_zero_score :
  exists h, In h (_keyword_search apples_engine "100%" 10 0 no_filters)
            /\ relevance h = 0%Q
            /\ relevance h =
                 py_min 1 (fadd (fmul (of_int (count (content_lower (row (dict h)))
                                                (lower (list_ascii_of_string "100%")))) (1 # 10))
                                (fmul (of_int (count (title_lower (row (dict h)))
                                                (lower (list_ascii_of_string "100%")))) (1 # 2))).
Proof.
  eexists. split; [left; reflexivity|]. split; reflexivity.
Qed.

(** ** Degradation *)

(** C5.  With AI switched off or in offline mode, a search in vector mode
    returns what the search in keyword mode returns on the same inputs. *)
Theorem vector_mode_degrades_to_keyword (self : SearchEngine) (query : string)
    (limit offset : nat) (filters : option Filters) :
  is_ai_enabled self = false \/ is_offline_mode self = true ->
  search self query "vector" limit offset filters
  = search self query "keyword" limit offset filters.
Proof.
  intros H. unfold search, _vector_search.
  destruct (String.eqb query ""); [reflexivity|]. simpl.
  destruct H as [-> | ->]; simpl; [reflexivity|].
  rewrite orb_true_r. reflexivity.
Qed.

Lemma vector_mode_degrades_to_keyword_witness :
  search rust_go_engine "model" "vector" 10 0 None
  = search rust_go_engine "model" "keyword" 10 0 None.
Proof.
  apply (vector_mode_degrades_to_keyword rust_go_engine "model" 10 0 None).
  left. reflexivity.
Defined.

(** C6 (amended).  When the index call raises, [search_similar_ideas] lets
    the exception through, and the vector retriever catches it and returns
    the keyword search results for the same query, limit, offset and
    filters. *)
Theorem vector_search_error_falls_back (self : SearchEngine) (query : string)
    (limit offset : nat) (filters : Filters) :
  is_ai_enabled self = true -> is_offline_mode self = false ->
  collection_query self query (limit + offset) (metadata_filter_of filters) = Raise ->
  search_similar_ideas self query (limit + offset) (metadata_filter_of filters) = Raise
  /\ _vector_search self query limit offset filters
     = _keyword_search self query limit offset filters.
Proof.
  intros Hai Hoff Hq. unfold _vector_search, search_similar_ideas.
  rewrite Hai, Hoff, Hq. simpl. split; reflexivity.
Qed.

Lemma vector_search_error_falls_back_witness :
  search_similar_ideas unreachable_engine "model" (10 + 0) (metadata_filter_of no_filters)
  = Raise
  /\ _vector_search unreachable_engine "model" 10 0 no_filters
     = _keyword_search unreachable_engine "model" 10 0 no_filters.
Proof.
  apply (vector_search_error_falls_back unreachable_engine "model" 10 0 no_filters);
    reflexivity.
Defined.

(** C6 as stated fails: with the index unreachable the vector retriever
    returns a result, the lexical match. *)
Lemma vector_search_error_not_empty :
  collection_query unreachable_engine "model" (10 + 0) (metadata_filter_of no_filters)
  = Raise
  /\ _vector_search unreachable_engine "model" 10 0 no_filters <> [].
Proof. split; [reflexivity|discriminate]. Qed.

(** ** Embeddings *)

(** C10 (amended).  For the empty text [generate_embedding] returns [None],
    whatever the AI service and the fallback are; it does not raise. *)
Theorem generate_embedding_empty (self : EmbeddingGenerator) :
  generate_embedding self "" = None.
Proof. reflexivity. Qed.

(** C10 as stated fails: the embedding of the empty text is not the zero
    vector of the configured dimension. *)
Lemma generate_embedding_empty_not_zero_vector :
  generate_embedding sample_generator "" <> Some (repeat 0%Q embedding_dim).
Proof. discriminate. Qed.

(** ** The merged dict *)

Lemma dict_get_In (d : list (Z * Hit)) (k : Z) (h : Hit) :
  dict_get d k = Some h -> In (k, h) d.
Proof.
  unfold dict_get. destruct (find _ d) as [[k' h']|] eqn:E; [|discriminate].
  intros [= <-]. apply find_some in E. destruct E as [E1 E2].
  simpl in E2. apply Z.eqb_eq in E2. subst k'. exact E1.
Qed.

Lemma dict_get_None (d : list (Z * Hit)) (k : Z) :
  dict_get d k = None <-> ~ In k (keys d).
Proof.
  unfold dict_get, keys. induction d as [|[k' h'] d IH]; simpl; [tauto|].
  destruct (Z.eqb_spec k' k) as [->|Hne]; simpl.
  - split; [discriminate|]. intros H; exfalso; apply H; left; reflexivity.
  - rewrite IH. tauto.
Qed.

Lemma In_dict_get (d : list (Z * Hit)) (k : Z) (h : Hit) :
  NoDup (keys d) -> In (k, h) d -> dict_get d k = Some h.
Proof.
  unfold dict_get, keys. induction d as [|[k' h'] d IH]; simpl; [tauto|].
  intros Hnd [[= -> ->]|H].
  - rewrite Z.eqb_refl. reflexivity.
  - inversion Hnd as [|? ? Hnot Hnd']; subst.
    destruct (Z.eqb_spec k' k) as [->|Hne]; simpl.
    + exfalso. apply Hnot. change k with (fst (k, h)). apply in_map, H.
    + apply IH; assumption.
Qed.

Lemma dict_get_set_same (d : list (Z * Hit)) (k : Z) (v : Hit) :
  dict_get (dict_set k v d) k = Some v.
Proof.
  unfold dict_get. induction d as [|[k' h'] d IH]; simpl.
  - rewrite Z.eqb_refl. reflexivity.
  - destruct (Z.eqb_spec k' k) as [->|Hne]; simpl.
    + rewrite Z.eqb_refl. reflexivity.
    + destruct (Z.eqb_spec k' k); [contradiction|]. exact IH.
Qed.

Lemma dict_get_set_other (d : list (Z * Hit)) (k k' : Z) (v : Hit) :
  k' <> k -> dict_get (dict_set k v d) k' = dict_get d k'.
Proof.
  intros Hne. unfold dict_get. induction d as [|[k0 h0] d IH]; simpl.
  - destruct (Z.eqb_spec k k'); [congruence|reflexivity].
  - destruct (Z.eqb_spec k0 k) as [->|Hne0]; simpl.
    + destruct (Z.eqb_spec k k'); [congruence|reflexivity].
    + destruct (Z.eqb_spec k0 k'); [reflexivity|exact IH].
Qed.

Lemma keys_dict_set (d : list (Z * Hit)) (k k' : Z) (v : Hit) :
  In k' (keys (dict_set k v d)) <-> k' = k \/ In k' (keys d).
Proof.
  unfold keys. induction d as [|[k0 h0] d IH]; simpl; [intuition|].
  destruct (Z.eqb_spec k0 k) as [->|Hne0]; simpl; [intuition|].
  rewrite IH. intuition.
Qed.

Lemma NoDup_keys_dict_set (d : list (Z * Hit)) (k : Z) (v : Hit) :
  NoDup (keys d) -> NoDup (keys (dict_set k v d)).
Proof.
  induction d as [|[k0 h0] d IH]; simpl; intros Hnd.
  - repeat constructor. intros [].
  - inversion Hnd as [|? ? Hnot Hnd']; subst.
    destruct (Z.eqb_spec k0 k) as [->|Hne0]; simpl.
    + constructor; assumption.
    + constructor; [|apply IH, Hnd'].
      intros H. apply keys_dict_set in H. destruct H as [H|H]; [congruence|].
      apply Hnot, H.
Qed.

Lemma In_dict_set (d : list (Z * Hit)) (k : Z) (v : Hit) (kv : Z * Hit) :
  In kv (dict_set k v d) -> kv = (k, v) \/ In kv d.
Proof.
  induction d as [|[k0 h0] d IH]; simpl; [intuition|].
  destruct (Z.eqb_spec k0 k) as [->|Hne0]; simpl; intuition.
Qed.

Lemma NoDup_keys_add_keyword (d : list (Z * Hit)) (h : Hit) :
  NoDup (keys d) -> NoDup (keys (add_keyword_result d h)).
Proof. apply NoDup_keys_dict_set. Qed.

Lemma NoDup_keys_add_vector (d : list (Z * Hit)) (h : Hit) :
  NoDup (keys d) -> NoDup (keys (add_vector_result d h)).
Proof.
  unfold add_vector_result. destruct (dict_get d (hit_id h)); apply NoDup_keys_dict_set.
Qed.

Lemma NoDup_keys_fold (f : list (Z * Hit) -> Hit -> list (Z * Hit)) (l : list Hit) :
  (forall d h, NoDup (keys d) -> NoDup (keys (f d h))) ->
  forall d, NoDup (keys d) -> NoDup (keys (fold_left f l d)).
Proof.
  intros Hf. induction l as [|x l IH]; simpl; auto.
Qed.

(** A property of the entries that every update keeps, is kept by a loop. *)
Lemma fold_left_Forall (P : Z * Hit -> Prop)
    (f : list (Z * Hit) -> Hit -> list (Z * Hit)) (l : list Hit) :
  (forall d h, In h l -> Forall P d -> Forall P (f d h)) ->
  forall d, Forall P d -> Forall P (fold_left f l d).
Proof.
  induction l as [|x l IH]; simpl; intros Hf d Hd; [exact Hd|].
  apply IH; [|apply Hf; auto].
  intros d' h' Hh'. apply Hf. right. exact Hh'.
Qed.

Lemma dict_set_Forall (P : Z * Hit -> Prop) (d : list (Z * Hit)) (k : Z) (v : Hit) :
  P (k, v) -> Forall P d -> Forall P (dict_set k v d).
Proof.
  intros Hv Hd. apply Forall_forall. intros kv H.
  apply In_dict_set in H. destruct H as [->|H]; [exact Hv|].
  rewrite Forall_forall in Hd. apply Hd, H.
Qed.

Lemma fold_keyword_other (kw : list Hit) (d : list (Z * Hit)) (k : Z) :
  ~ In k (hit_ids kw) ->
  dict_get (fold_left add_keyword_result kw d) k = dict_get d k.
Proof.
  revert d. induction kw as [|x kw IH]; simpl; intros d Hk; [reflexivity|].
  rewrite IH by tauto. apply dict_get_set_other. intros ->. tauto.
Qed.

Lemma fold_keyword_get (kw : list Hit) (d : list (Z * Hit)) (h : Hit) :
  NoDup (hit_ids kw) -> In h kw ->
  dict_get (fold_left add_keyword_result kw d) (hit_id h) = Some (set_source h keyword).
Proof.
  revert d. induction kw as [|x kw IH]; simpl; intros d Hnd Hh; [contradiction|].
  inversion Hnd as [|? ? Hnot Hnd']; subst. destruct Hh as [->|Hh].
  - rewrite fold_keyword_other by exact Hnot. apply dict_get_set_same.
  - apply IH; assumption.
Qed.

Lemma fold_vector_other (vec : list Hit) (d : list (Z * Hit)) (k : Z) :
  ~ In k (hit_ids vec) ->
  dict_get (fold_left add_vector_result vec d) k = dict_get d k.
Proof.
  revert d. induction vec as [|x vec IH]; simpl; intros d Hk; [reflexivity|].
  rewrite IH by tauto. unfold add_vector_result.
  destruct (dict_get d (hit_id x)); apply dict_get_set_other; intros ->; tauto.
Qed.

Lemma fold_vector_get (vec : list Hit) (d : list (Z * Hit)) (v : Hit) :
  NoDup (hit_ids vec) -> In v vec ->
  dict_get (fold_left add_vector_result vec d) (hit_id v)
  = match dict_get d (hit_id v) with
    | Some found =>
        Some (mkHit (dict found) (py_max (relevance found) (relevance v)) (Some both))
    | None => Some (set_source v vector)
    end.
Proof.
  revert d. induction vec as [|x vec IH]; simpl; intros d Hnd Hv; [contradiction|].
  inversion Hnd as [|? ? Hnot Hnd']; subst. destruct Hv as [->|Hv].
  - rewrite fold_vector_other by exact Hnot. unfold add_vector_result.
    destruct (dict_get d (hit_id v)); apply dict_get_set_same.
  - rewrite IH by assumption.
    assert (Hne : hit_id v <> hit_id x).
    { intros E. apply Hnot. rewrite <- E. apply in_map, Hv. }
    unfold add_vector_result.
    destruct (dict_get d (hit_id x)); rewrite dict_get_set_other by exact Hne; reflexivity.
Qed.



Lemma NoDup_keys_merged (kw vec : list Hit) :
  NoDup (keys (fold_left add_vector_result vec (fold_left add_keyword_result kw []))).
Proof.
  apply NoDup_keys_fold; [exact NoDup_keys_add_vector|].
  apply NoDup_keys_fold; [exact NoDup_keys_add_keyword|]. constructor.
Qed.

(** What an entry of the merged dict is, by the lists its key occurs in. *)
Lemma merged_entry (kw vec : list Hit) (k : Z) (h : Hit) :
  NoDup (hit_ids kw) -> NoDup (hit_ids vec) ->
  In (k, h) (fold_left add_vector_result vec (fold_left add_keyword_result kw [])) ->
  (exists kh vh, In kh kw /\ In vh vec /\ hit_id kh = k /\ hit_id vh = k
                 /\ h = mkHit (dict kh) (py_max (relevance kh) (relevance vh)) (Some both))
  \/ (exists kh, In kh kw /\ hit_id kh = k /\ ~ In k (hit_ids vec)
                 /\ h = set_source kh keyword)
  \/ (exists vh, In vh vec /\ hit_id vh = k /\ ~ In k (hit_ids kw)
                 /\ h = set_source vh vector).
Proof.
  intros Hkw Hvec Hin.
  apply In_dict_get in Hin; [|apply NoDup_keys_merged].
  destruct (in_dec Z.eq_dec k (hit_ids vec)) as [Hv|Hv];
    destruct (in_dec Z.eq_dec k (hit_ids kw)) as [Hk|Hk].
  - apply in_map_iff in Hv. destruct Hv as (vh & Ev & Hv).
    apply in_map_iff in Hk. destruct Hk as (kh & Ek & Hk).
    left. exists kh, vh. repeat (split; [assumption|]).
    rewrite <- Ev in Hin. rewrite fold_vector_get in Hin by assumption.
    rewrite Ev, <- Ek in Hin. rewrite fold_keyword_get in Hin by assumption.
    injection Hin as <-. reflexivity.
  - apply in_map_iff in Hv. destruct Hv as (vh & Ev & Hv).
    right; right. exists vh. repeat (split; [assumption|]).
    rewrite <- Ev in Hin. rewrite fold_vector_get in Hin by assumption.
    rewrite Ev in Hin. rewrite fold_keyword_other in Hin by assumption.
    simpl in Hin. injection Hin as <-. reflexivity.
  - apply in_map_iff in Hk. destruct Hk as (kh & Ek & Hk).
    right; left. exists kh. repeat (split; [assumption|]).
    rewrite fold_vector_other in Hin by assumption.
    rewrite <- Ek in Hin. rewrite fold_keyword_get in Hin by assumption.
    injection Hin as <-. reflexivity.
  - rewrite fold_vector_other, fold_keyword_other in Hin by assumption.
    discriminate.
Qed.



(** ** No retriever returns an idea twice *)

(** A page [LIMIT n OFFSET m] of rows without repeats has no repeats. *)
Lemma NoDup_page {A} (n m : nat) (rows : list A) :
  NoDup rows -> NoDup (firstn n (skipn m rows)).
Proof.
  intros Hrows.
  assert (Htail : NoDup (skipn m rows)).
  { apply (NoDup_app_remove_l (firstn m rows)). now rewrite firstn_skipn. }
  apply (NoDup_app_remove_r _ (skipn n (skipn m rows))). now rewrite firstn_skipn.
Qed.

(** A [WHERE] clause keeps the ids of the selected rows distinct. *)
Lemma where_keeps_primary_key (clause : Idea -> bool) (rows : list Idea) :
  NoDup (map idea_id rows) -> NoDup (map idea_id (filter clause rows)).
Proof.
  induction rows as [|i rows IH]; simpl; intros Hkey; [constructor|].
  apply NoDup_cons_iff in Hkey. destruct Hkey as [Hfresh Hkey].
  destruct (clause i); simpl; [|auto].
  apply NoDup_cons; [|auto].
  intros Hin. apply Hfresh. apply in_map_iff in Hin.
  destruct Hin as (j & <- & Hj). apply filter_In in Hj. apply in_map, Hj.
Qed.

Lemma hit_ids_keyword_hits (self : SearchEngine) (query : string) (l : list Idea) :
  hit_ids (map (keyword_hit self query) l) = map idea_id l.
Proof. unfold hit_ids. rewrite map_map. reflexivity. Qed.

Lemma NoDup_keyword_search (self : SearchEngine) (query : string) (limit offset : nat)
    (filters : Filters) :
  primary_key (database self) ->
  NoDup (hit_ids (_keyword_search self query limit offset filters)).
Proof.
  intros Hpk. unfold _keyword_search.
  eapply Permutation_NoDup; [apply Permutation_map, stable_sort_perm|].
  change (NoDup (hit_ids (map (keyword_hit self query)
    (firstn limit (skipn offset (stable_sort by_created_at_desc
       (filter (keyword_where self query filters) (Ideas (database self))))))))).
  rewrite hit_ids_keyword_hits, <- firstn_map, <- skipn_map.
  apply NoDup_page.
  eapply Permutation_NoDup; [apply Permutation_map, stable_sort_perm|].
  apply where_keeps_primary_key, Hpk.
Qed.


Lemma enumerate_similar_distance (i : nat) (ids : list Z) (distances : option (list Q))
    (l : list Similar) (s : Similar) :
  enumerate_similar i ids distances = Return l -> In s l ->
  distance s = None
  \/ exists ds d, distances = Some ds /\ In d ds /\ distance s = Some d.
Proof.
  revert i l. induction ids as [|x ids IH]; simpl; intros i l H Hs.
  - injection H as <-. contradiction.
  - destruct distances as [ds|].
    + destruct (nth_error ds i) as [d|] eqn:En; simpl in H; [|discriminate].
      destruct (enumerate_similar (S i) ids (Some ds)) as [rest|] eqn:E; simpl in H;
        [|discriminate].
      injection H as <-. destruct Hs as [<-|Hs].
      * right. exists ds, d. simpl. eauto using nth_error_In.
      * eapply IH; eauto.
    + simpl in H.
      destruct (enumerate_similar (S i) ids None) as [rest|] eqn:E; simpl in H;
        [|discriminate].
      injection H as <-. destruct Hs as [<-|Hs]; [left; reflexivity|].
      eapply IH; eauto.
Qed.

Lemma get_idea_id (self : SearchEngine) (id : Z) (idea : IdeaDict) :
  get_idea self id = Some idea -> idea_id (row idea) = id.
Proof.
  unfold get_idea. destruct (find _ _) as [i|] eqn:E; [|discriminate].
  intros [= <-]. apply find_some in E. simpl. apply Z.eqb_eq, E.
Qed.

Lemma vector_hit_inv (self : SearchEngine) (filters : Filters) (s : Similar) (h : Hit) :
  In h (vector_hit self filters s) ->
  hit_id h = sim_idea_id s
  /\ relevance h = fsub 1 (distance_or_zero (distance s))
  /\ search_source h = None.
Proof.
  unfold vector_hit. destruct (get_idea self (sim_idea_id s)) as [idea|] eqn:E;
    [|contradiction].
  apply get_idea_id in E.
  destruct (flt_tag_ids filters) as [[|t ts]|];
    try destruct (forallb _ _); simpl; intros Hin; try contradiction;
    destruct Hin as [<-|[]]; auto.
Qed.



Lemma NoDup_map_inj {A B} (f : A -> B) (l : list A) (a b : A) :
  NoDup (map f l) -> In a l -> In b l -> f a = f b -> a = b.
Proof.
  induction l as [|x l IH]; simpl; intros Hnd Ha Hb E; [contradiction|].
  inversion Hnd as [|? ? Hnot Hnd']; subst.
  destruct Ha as [->|Ha], Hb as [->|Hb]; auto.
  - exfalso. apply Hnot. rewrite E. apply in_map, Hb.
  - exfalso. apply Hnot. rewrite <- E. apply in_map, Ha.
Qed.

Lemma In_merge_results (kw vec : list Hit) (h : Hit) :
  In h (merge_results kw vec) ->
  exists k, In (k, h) (fold_left add_vector_result vec (fold_left add_keyword_result kw [])).
Proof.
  unfold merge_results. intros H. apply in_map_iff in H.
  destruct H as ([k h'] & E & H). simpl in E. subst h'. exists k. exact H.
Qed.

(** ** Hybrid merge *)


Lemma primary_key_rust_go : primary_key rust_go_store.
Proof.
  unfold primary_key. simpl. repeat constructor; simpl; intuition discriminate.
Qed.




Example hybrid_merge_near :
  map (fun h => (hit_id h, relevance h, search_source h))
      (_hybrid_search near_engine "model" 10 0 no_filters)
  = [ (1%Z, 3 # 4, Some both); (2%Z, 1 # 4, Some vector) ].
Proof. vm_compute. reflexivity. Qed.

(** ** Score bounds *)

Lemma fsub_unit (d : Q) : (0 <= d /\ d <= 1)%Q -> (0 <= fsub 1 d /\ fsub 1 d <= 1)%Q.
Proof. intros [H0 H1]. unfold fsub. rewrite Qred_correct. split; lra. Qed.

Lemma fsub_no_floor (d : Q) : (1 < d)%Q -> (fsub 1 d < 0)%Q.
Proof. intros H. unfold fsub. rewrite Qred_correct. lra. Qed.

(** Every score of the merge is a score of one of the two lists. *)
Lemma merge_relevance_from (kw vec : list Hit) (h : Hit) :
  In h (merge_results kw vec) ->
  exists g, In g (kw ++ vec) /\ relevance h = relevance g.
Proof.
  intros H. apply In_merge_results in H. destruct H as (k & H).
  set (P := fun kv : Z * Hit => exists g, In g (kw ++ vec) /\ relevance (snd kv) = relevance g).
  assert (HP : Forall P (fold_left add_vector_result vec (fold_left add_keyword_result kw []))).
  { apply fold_left_Forall.
    - intros d v Hv Hd. unfold add_vector_result.
      destruct (dict_get d (hit_id v)) as [found|] eqn:E.
      + apply dict_set_Forall; [|exact Hd].
        apply dict_get_In in E. rewrite Forall_forall in Hd.
        destruct (Hd _ E) as (g & Hg & Eg). unfold P. simpl in *.
        destruct (py_max_cases (relevance found) (relevance v)) as [[-> _]|[-> _]].
        * exists g. auto.
        * exists v. split; [apply in_or_app; right; exact Hv|reflexivity].
      + apply dict_set_Forall; [|exact Hd].
        exists v. split; [apply in_or_app; right; exact Hv|reflexivity].
    - apply fold_left_Forall; [|constructor].
      intros d v Hv Hd. apply dict_set_Forall; [|exact Hd].
      exists v. split; [apply in_or_app; left; exact Hv|reflexivity]. }
  rewrite Forall_forall in HP. exact (HP _ H).
Qed.

Lemma keyword_search_bounds (self : SearchEngine) (query : string) (limit offset : nat)
    (filters : Filters) (h : Hit) :
  In h (_keyword_search self query limit offset filters) ->
  (0 <= relevance h /\ relevance h <= 1)%Q.
Proof.
  intros H. apply keyword_search_inv in H. destruct H as (i & _ & _ & ->).
  apply keyword_relevance_bounds.
Qed.

Lemma vector_search_bounds (self : SearchEngine) (query : string) (limit offset : nat)
    (filters : Filters) (h : Hit) :
  unit_distances self ->
  In h (_vector_search self query limit offset filters) ->
  (0 <= relevance h /\ relevance h <= 1)%Q.
Proof.
  intros Hud. unfold _vector_search.
  destruct (negb (is_ai_enabled self) || is_offline_mode self);
    [apply keyword_search_bounds|].
  unfold search_similar_ideas.
  destruct (collection_query self query (limit + offset) (metadata_filter_of filters))
    as [results|] eqn:Eq; simpl; [|apply keyword_search_bounds].
  destruct (enumerate_similar 0 (res_ids results) (res_distances results))
    as [similar|] eqn:Ee; simpl; [|apply keyword_search_bounds].
  intros H. apply in_flat_map in H. destruct H as (s & Hs & H).
  apply In_slice in Hs. apply vector_hit_inv in H. destruct H as (_ & -> & _).
  apply fsub_unit.
  destruct (enumerate_similar_distance _ _ _ _ _ Ee Hs) as [->|(ds & d & Eds & Hd & ->)];
    simpl.
  - split; discriminate.
  - eapply Hud; eauto.
Qed.

Lemma hybrid_search_bounds (self : SearchEngine) (query : string) (limit offset : nat)
    (filters : Filters) (h : Hit) :
  unit_distances self ->
  In h (_hybrid_search self query limit offset filters) ->
  (0 <= relevance h /\ relevance h <= 1)%Q.
Proof.
  intros Hud. unfold _hybrid_search.
  destruct (negb (is_ai_enabled self) || is_offline_mode self);
    [apply keyword_search_bounds|].
  simpl. intros H. apply In_slice, In_stable_sort, merge_relevance_from in H.
  destruct H as (g & Hg & ->). apply in_app_or in Hg. destruct Hg as [Hg|Hg].
  - eapply keyword_search_bounds, Hg.
  - eapply vector_search_bounds; eauto.
Qed.

(** C2 (amended).  A keyword score lies in [0,1].  The vector retriever
    turns a distance [d] into [1.0 - d], a missing distance counting as
    [0.0], with no floor at 0: a distance above 1 gives a negative score.
    When every distance the index reports lies in [0,1], every score that
    [search] returns, in any mode, lies in [0,1]. *)
Theorem relevance_bounds_need_unit_distances :
  (forall (self : SearchEngine) (filters : Filters) (similar : Similar) (h : Hit),
     In h (vector_hit self filters similar) ->
     relevance h = fsub 1 (distance_or_zero (distance similar)))
  /\ (forall d : Q, (1 < d)%Q -> (fsub 1 d < 0)%Q)
  /\ (forall (i : Idea) (query : string),
        (0 <= _calculate_keyword_relevance i query
         /\ _calculate_keyword_relevance i query <= 1)%Q)
  /\ (forall (self : SearchEngine) (query search_type : string) (limit offset : nat)
             (filters : option Filters),
        unit_distances self ->
        forall h, In h (search self query search_type limit offset filters) ->
                  (0 <= relevance h /\ relevance h <= 1)%Q).
Proof.
  split; [|split; [exact fsub_no_floor|split; [exact keyword_relevance_bounds|]]].
  - intros self filters similar h H. apply vector_hit_inv in H. tauto.
  - intros self query search_type limit offset filters Hud h. unfold search.
    destruct (String.eqb query ""); [contradiction|].
    destruct (String.eqb search_type "keyword"); [apply keyword_search_bounds|].
    destruct (String.eqb search_type "vector").
    + apply vector_search_bounds, Hud.
    + apply hybrid_search_bounds, Hud.
Qed.

Lemma unit_distances_near : unit_distances near_engine.
Proof.
  intros query n fm results ds d H Hds Hd. injection H as <-. simpl in Hds.
  injection Hds as <-. apply In_firstn in Hd. simpl in Hd.
  destruct Hd as [<-|[<-|[]]]; split; discriminate.
Qed.

Lemma relevance_bounds_need_unit_distances_witness :
  In near_model_hit (search near_engine "model" "hybrid" 10 0 None)
  /\ (0 <= relevance near_model_hit /\ relevance near_model_hit <= 1)%Q.
Proof.
  assert (H : In near_model_hit (search near_engine "model" "hybrid" 10 0 None))
    by (left; reflexivity).
  split; [exact H|].
  exact (proj2 (proj2 (proj2 relevance_bounds_need_unit_distances))
           near_engine "model" "hybrid" 10 0 None unit_distances_near near_model_hit H).
Defined.

(** C2 as stated fails: the index reports idea 2 at distance 3/2, and the
    hybrid search returns it with the score -1/2, not 0. *)
Lemma hybrid_search_negative_score :
  exists h, In h (search far_engine "model" "hybrid" 10 0 None)
            /\ hit_id h = 2%Z
            /\ relevance h = (- 1 # 2)%Q
            /\ ~ (0 <= relevance h)%Q
            /\ relevance h <> py_max 0 (fsub 1 (3 # 2)).
Proof.
  eexists. split; [right; left; reflexivity|]. simpl.
  repeat split; try reflexivity; [intros H; apply H; reflexivity|discriminate].
Qed.

(** ** Pagination of the hybrid search *)

Lemma length_dict_set (d : list (Z * Hit)) (k : Z) (v : Hit) :
  List.length (dict_set k v d) <= S (List.length d).
Proof.
  induction d as [|kv d IH]; simpl; [lia|].
  destruct (Z.eqb (fst kv) k); simpl; lia.
Qed.

Lemma length_fold_dict (f : list (Z * Hit) -> Hit -> list (Z * Hit)) (l : list Hit) :
  (forall d h, List.length (f d h) <= S (List.length d)) ->
  forall d, List.length (fold_left f l d) <= List.length d + List.length l.
Proof.
  intros Hf. induction l as [|x l IH]; simpl; intros d; [lia|].
  specialize (IH (f d x)). specialize (Hf d x). lia.
Qed.

Lemma length_merge_results (kw vec : list Hit) :
  List.length (merge_results kw vec) <= List.length kw + List.length vec.
Proof.
  unfold merge_results. rewrite length_map.
  etransitivity; [apply length_fold_dict|].
  - intros d h. unfold add_vector_result.
    destruct (dict_get d (hit_id h)); apply length_dict_set.
  - assert (H : List.length (fold_left add_keyword_result kw []) <= 0 + List.length kw).
    { apply length_fold_dict. intros d h. apply length_dict_set. }
    lia.
Qed.

Lemma length_keyword_search (self : SearchEngine) (query : string) (limit offset : nat)
    (filters : Filters) :
  List.length (_keyword_search self query limit offset filters) <= limit.
Proof.
  unfold _keyword_search. rewrite length_stable_sort, length_map. apply firstn_le_length.
Qed.

Lemma length_vector_hits (self : SearchEngine) (filters : Filters) (l : list Similar) :
  List.length (flat_map (vector_hit self filters) l) <= List.length l.
Proof.
  induction l as [|s l IH]; simpl; [lia|]. rewrite length_app.
  assert (H : List.length (vector_hit self filters s) <= 1).
  { unfold vector_hit. destruct (get_idea self (sim_idea_id s)); [|simpl; lia].
    destruct (flt_tag_ids filters) as [[|t ts]|];
      try destruct (forallb _ _); simpl; lia. }
  lia.
Qed.

Lemma length_vector_search (self : SearchEngine) (query : string) (limit offset : nat)
    (filters : Filters) :
  List.length (_vector_search self query limit offset filters) <= limit.
Proof.
  unfold _vector_search.
  destruct (negb (is_ai_enabled self) || is_offline_mode self);
    [apply length_keyword_search|].
  destruct (search_similar_ideas self query (limit + offset) (metadata_filter_of filters))
    as [similar|]; simpl; [|apply length_keyword_search].
  etransitivity; [apply length_vector_hits|].
  unfold slice. etransitivity; [apply firstn_le_length|]. lia.
Qed.

(** With AI on, the merge never holds more than [2 * limit] ideas, whatever
    the store holds: a page that starts at [2 * limit] or later is empty. *)
Lemma hybrid_search_empty_past_two_limits (self : SearchEngine) (query : string)
    (limit offset : nat) (filters : Filters) :
  is_ai_enabled self = true -> is_offline_mode self = false ->
  2 * limit <= offset ->
  _hybrid_search self query limit offset filters = [].
Proof.
  intros Hai Hoff Hle. unfold _hybrid_search. rewrite Hai, Hoff. simpl.
  unfold slice. rewrite skipn_all2; [apply firstn_nil|].
  rewrite length_stable_sort.
  pose proof (length_merge_results (_keyword_search self query limit 0 filters)
                (_vector_search self query limit 0 filters)).
  pose proof (length_keyword_search self query limit 0 filters).
  pose proof (length_vector_search self query limit 0 filters).
  lia.
Qed.


(** C3.  The code grants each retriever [limit] candidates, not
    [limit + offset].  Over the five ideas, with [limit = 2] and
    [offset = 2], the merge as specified ranks ideas 2, 3, 4, 5, 1 and the
    page is ideas 4 and 5; the code merges four candidates only, ranks them
    4, 5, 1, 2 and returns ideas 1 and 2. *)
Theorem hybrid_search_grants_limit_only :
  hit_ids (_keyword_search five_engine "a" (2 + 2) 0 no_filters) = [2; 3; 4; 5]%Z
  /\ hit_ids (_vector_search five_engine "a" (2 + 2) 0 no_filters) = [1; 2; 3; 4]%Z
  /\ hit_ids (stable_sort by_relevance_desc
               (merge_results (_keyword_search five_engine "a" (2 + 2) 0 no_filters)
                              (_vector_search five_engine "a" (2 + 2) 0 no_filters)))
     = [2; 3; 4; 5; 1]%Z
  /\ hit_ids (hybrid_search_spec five_engine "a" 2 2 no_filters) = [4; 5]%Z
  /\ hit_ids (stable_sort by_relevance_desc
               (merge_results (_keyword_search five_engine "a" 2 0 no_filters)
                              (_vector_search five_engine "a" 2 0 no_filters)))
     = [4; 5; 1; 2]%Z
  /\ hit_ids (_hybrid_search five_engine "a" 2 2 no_filters) = [1; 2]%Z.
Proof. vm_compute. repeat split; reflexivity. Qed.

(** ** Filters *)

(** The keyword path asks for one of the tags, the vector path for all. *)
Lemma keyword_search_any_tag (self : SearchEngine) (query : string) (limit offset : nat)
    (filters : Filters) (t : Z) (ts : list Z) (h : Hit) :
  flt_tag_ids filters = Some (t :: ts) ->
  In h (_keyword_search self query limit offset filters) ->
  exists tag, In tag (t :: ts) /\ In (hit_id h, tag) (IdeaTags (database self)).
Proof.
  intros Ef H. apply keyword_search_inv in H. destruct H as (i & _ & Hw & ->).
  unfold keyword_where in Hw. rewrite Ef in Hw.
  apply andb_true_iff in Hw. destruct Hw as [_ Hw].
  apply existsb_exists in Hw. destruct Hw as ([i' tag] & Hin & Hw).
  apply andb_true_iff in Hw. destruct Hw as [E Hm]. cbn [fst snd] in E, Hm.
  apply Z.eqb_eq in E. subst i'. apply mem_In in Hm.
  exists tag. split; [exact Hm|exact Hin].
Qed.

Lemma vector_hit_all_tags (self : SearchEngine) (filters : Filters) (t : Z) (ts : list Z)
    (s : Similar) (h : Hit) :
  flt_tag_ids filters = Some (t :: ts) ->
  In h (vector_hit self filters s) ->
  forall tag, In tag (t :: ts) -> In tag (map tag_id (tags (dict h))).
Proof.
  intros Ef. unfold vector_hit. rewrite Ef.
  destruct (get_idea self (sim_idea_id s)) as [idea|]; [|contradiction].
  destruct (forallb _ _) eqn:E; [|contradiction].
  intros [<-|[]] tag Htag. simpl.
  rewrite forallb_forall in E. apply mem_In, E, Htag.
Qed.

(** C7.  With the filter [tag_ids = [1, 2]], the keyword path keeps idea 1,
    which carries tag 1 only, and the vector path drops it; the hybrid
    search returns idea 1 through the keyword path. *)
Theorem tag_filter_any_of_against_all_of :
  map tag_id (get_idea_tags tagged_engine 1) = [1]%Z
  /\ hit_ids (_keyword_search tagged_engine "rust" 10 0 both_tags) = [1; 2]%Z
  /\ hit_ids (_vector_search tagged_engine "rust" 10 0 both_tags) = [2]%Z
  /\ hit_ids (_vector_search tagged_engine "rust" 10 0 no_filters) = [1; 2]%Z
  /\ map (fun h => (hit_id h, search_source h))
         (_hybrid_search tagged_engine "rust" 10 0 both_tags)
     = [ (1%Z, Some keyword); (2%Z, Some both) ].
Proof. vm_compute. repeat split; reflexivity. Qed.

(** ** Related ideas *)

(** C8.  Idea 5 has a curated relation to idea 6, and the index answers with
    ideas 6 and 7: [get_related_ideas] returns idea 6 twice. *)
Theorem related_ideas_repeat_a_curated_idea :
  map idea_id (related_from_relations related_engine 5 2) = [6]%Z
  /\ map related_id (get_related_ideas related_engine 5 2) = [6; 6]%Z
  /\ ~ NoDup (map related_id (get_related_ideas related_engine 5 2)).
Proof.
  split; [reflexivity|]. split; [vm_compute; reflexivity|].
  intros H. inversion H as [|? ? Hnot _]; subst. apply Hnot. left. reflexivity.
Qed.

Lemma by_tag_count_total (self : SearchEngine) (tag_ids : list Z) (i j : Idea) :
  by_tag_count_then_created_at self tag_ids i j = true
  \/ by_tag_count_then_created_at self tag_ids j i = true.
Proof.
  unfold by_tag_count_then_created_at.
  destruct (Nat.ltb_spec (tag_count self tag_ids j) (tag_count self tag_ids i));
    [left; reflexivity|].
  destruct (Nat.ltb_spec (tag_count self tag_ids i) (tag_count self tag_ids j));
    [right; reflexivity|].
  assert (E : tag_count self tag_ids i = tag_count self tag_ids j) by lia.
  rewrite E, Nat.eqb_refl. simpl.
  destruct (Z.leb_spec (created_at j) (created_at i)); [left; reflexivity|].
  right. apply Z.leb_le. lia.
Qed.

Lemma by_tag_count_trans (self : SearchEngine) (tag_ids : list Z) (i j k : Idea) :
  by_tag_count_then_created_at self tag_ids i j = true ->
  by_tag_count_then_created_at self tag_ids j k = true ->
  by_tag_count_then_created_at self tag_ids i k = true.
Proof.
  unfold by_tag_count_then_created_at. intros H1 H2.
  apply orb_true_iff in H1, H2. apply orb_true_iff.
  rewrite !andb_true_iff, !Nat.ltb_lt, !Nat.eqb_eq, !Z.leb_le in *. lia.
Qed.

Lemma In_tag_candidates (self : SearchEngine) (id : Z) (tag_ids excluded : list Z)
    (i : Idea) :
  In i (tag_candidates self id tag_ids excluded) <->
  In i (Ideas (database self)) /\ 1 <= tag_count self tag_ids i
  /\ idea_id i <> id /\ ~ In (idea_id i) excluded.
Proof.
  unfold tag_candidates. rewrite filter_In, !andb_true_iff, !negb_true_iff, Nat.ltb_lt.
  rewrite Z.eqb_neq, <- mem_In, not_true_iff_false. unfold lt. tauto.
Qed.

Lemma tag_candidates_no_tags (self : SearchEngine) (id : Z) (excluded : list Z) :
  tag_candidates self id [] excluded = [].
Proof.
  unfold tag_candidates. induction (Ideas (database self)) as [|i l IH]; [reflexivity|].
  simpl. unfold tag_count at 1. simpl.
  assert (E : filter (fun it : Z * Z => Z.eqb (idea_id i) (fst it) && false)
                (IdeaTags (database self)) = []).
  { induction (IdeaTags (database self)) as [|it l' IH']; [reflexivity|].
    simpl. rewrite andb_false_r. exact IH'. }
  rewrite E. simpl. exact IH.
Qed.

Lemma related_id_bare (l : list Idea) : map related_id (map bare l) = map idea_id l.
Proof. rewrite map_map. reflexivity. Qed.

Lemma related_id_with_tags (self : SearchEngine) (l : list Idea) :
  map related_id (map (with_tags self) l) = map idea_id l.
Proof. rewrite map_map. reflexivity. Qed.

(** What the tag tier returns once the curated relations fall short. *)
Lemma tag_tier_result (self : SearchEngine) (id : Z) (limit : nat) (from_relations : list Idea) :
  List.length from_relations < limit ->
  let remaining := limit - List.length from_relations in
  let ranked :=
    stable_sort
      (by_tag_count_then_created_at self (map tag_id (get_idea_tags self id)))
      (tag_candidates self id (map tag_id (get_idea_tags self id))
         (map idea_id from_relations)) in
  map related_id (tag_tier self id limit from_relations)
  = map idea_id from_relations ++ map idea_id (firstn remaining ranked)
  /\ List.length (tag_tier self id limit from_relations)
     = Nat.min limit (List.length from_relations + List.length ranked).
Proof.
  intros Hlt. cbv zeta. unfold tag_tier, tag_results.
  destruct (get_idea_tags self id) as [|t ts].
  - simpl map at 2 3. rewrite tag_candidates_no_tags. simpl stable_sort.
    rewrite firstn_nil, app_nil_r, related_id_bare, length_map. simpl.
    split; [reflexivity|lia].
  - cbv zeta.
    set (ranked := stable_sort _ _).
    set (remaining := limit - List.length from_relations).
    assert (Hlen : List.length (map bare from_relations
                                ++ map (with_tags self) (firstn remaining ranked)) <= limit).
    { rewrite length_app, !length_map, length_firstn. lia. }
    rewrite firstn_all2 by exact Hlen.
    rewrite map_app, related_id_bare, related_id_with_tags.
    split; [reflexivity|].
    rewrite length_app, !length_map, length_firstn. lia.
Qed.

(** C9 (amended).  When the curated relations fall short of [limit]:
    if the vector tier runs and the index answers, the result is the curated
    ideas followed by the vector neighbours, cut at [limit], and the tag tier
    is not consulted; if the vector tier is skipped (AI off or offline) or
    raises, the result is the curated ideas followed by the first
    [limit - |curated|] tag-overlap candidates, which fills the result up
    to [limit] as far as candidates exist.  The candidates are the ideas
    sharing a tag with the source, other than the source and the curated
    ideas, ranked by shared-tag count descending, then creation time
    descending. *)
Theorem tag_tier_only_when_vector_tier_skipped_or_failed (self : SearchEngine) (id : Z)
    (limit : nat) (idea : IdeaDict) :
  get_idea self id = Some idea ->
  List.length (related_from_relations self id limit) < limit ->
  let from_relations := related_from_relations self id limit in
  let remaining := limit - List.length from_relations in
  let tag_ids := map tag_id (get_idea_tags self id) in
  let ranked :=
    stable_sort (by_tag_count_then_created_at self tag_ids)
      (tag_candidates self id tag_ids (map idea_id from_relations)) in
  (forall similar_ideas,
     is_ai_enabled self = true -> is_offline_mode self = false ->
     search_similar_ideas self (content (row idea)) (remaining + 1) None
     = Return similar_ideas ->
     get_related_ideas self id limit
     = firstn limit (map bare from_relations
                     ++ vector_related self id remaining similar_ideas))
  /\ (is_ai_enabled self = false \/ is_offline_mode self = true
      \/ search_similar_ideas self (content (row idea)) (remaining + 1) None = Raise ->
      map related_id (get_related_ideas self id limit)
      = map idea_id from_relations ++ map idea_id (firstn remaining ranked)
      /\ List.length (get_related_ideas self id limit)
         = Nat.min limit (List.length from_relations + List.length ranked))
  /\ StronglySorted (fun i j => by_tag_count_then_created_at self tag_ids i j = true) ranked
  /\ (forall i, In i ranked <->
                In i (Ideas (database self)) /\ 1 <= tag_count self tag_ids i
                /\ idea_id i <> id /\ ~ In (idea_id i) (map idea_id from_relations)).
Proof.
  intros Hget Hlt from_relations remaining tag_ids ranked.
  assert (Hleb : (limit <=? List.length from_relations) = false)
    by (apply Nat.leb_gt; exact Hlt).
  split; [|split; [|split]].
  - intros similar_ideas Hai Hoff Hsim. unfold get_related_ideas.
    rewrite Hget. fold from_relations. rewrite Hleb, Hai, Hoff. simpl.
    fold remaining. rewrite Hsim. reflexivity.
  - intros Hskip.
    assert (E : get_related_ideas self id limit = tag_tier self id limit from_relations).
    { unfold get_related_ideas. rewrite Hget. fold from_relations. rewrite Hleb.
      fold remaining.
      destruct Hskip as [ -> | [ -> | -> ] ]; simpl; try reflexivity.
      - rewrite andb_false_r. reflexivity.
      - destruct (is_ai_enabled self && negb (is_offline_mode self)); reflexivity. }
    rewrite E. apply tag_tier_result. exact Hlt.
  - apply stable_sort_sorted.
    + apply by_tag_count_total.
    + apply by_tag_count_trans.
  - intros i. unfold ranked. rewrite In_stable_sort. apply In_tag_candidates.
Qed.

Lemma tag_tier_only_when_vector_tier_skipped_or_failed_witness :
  map related_id (get_related_ideas related_offline_engine 5 2) = [6; 7]%Z
  /\ List.length (get_related_ideas related_offline_engine 5 2) = 2.
Proof.
  refine (proj1 (proj2 (tag_tier_only_when_vector_tier_skipped_or_failed
             related_offline_engine 5 2
             (mkIdeaDict (mkIdea 5 "source" None 5 false false) [mkTag 1 "topic"])
             _ _)) _).
  - reflexivity.
  - vm_compute. lia.
  - right. left. reflexivity.
Defined.

(** C9 as stated fails: the index is reachable and knows no idea, so the
    vector tier succeeds with nothing; idea 7 shares a tag with idea 5 and is
    a tag-overlap candidate, yet only the curated idea 6 is returned for
    [limit = 2]. *)
Lemma tag_tier_not_reached_after_vector_tier :
  map idea_id (related_from_relations related_empty_index_engine 5 2) = [6]%Z
  /\ search_similar_ideas related_empty_index_engine "source" 2 None = Return []
  /\ map idea_id (tag_candidates related_empty_index_engine 5 [1]%Z [6]%Z) = [7]%Z
  /\ map related_id (get_related_ideas related_empty_index_engine 5 2) = [6]%Z.
Proof. vm_compute. repeat split; reflexivity. Qed.

(** * Further properties of the search engine *)

(** ** Result size and order *)

Lemma length_hybrid_search (self : SearchEngine) (query : string) (limit offset : nat)
    (filters : Filters) :
  List.length (_hybrid_search self query limit offset filters) <= limit.
Proof.
  unfold _hybrid_search.
  destruct (negb (is_ai_enabled self) || is_offline_mode self);
    [apply length_keyword_search|].
  simpl. unfold slice. etransitivity; [apply firstn_le_length|]. lia.
Qed.

(** Whatever the mode, the store and the index, [search] returns at most
    [limit] results, and for the empty query it returns none. *)
Theorem search_returns_at_most_limit (self : SearchEngine) (query search_type : string)
    (limit offset : nat) (filters : option Filters) :
  List.length (search self query search_type limit offset filters) <= limit
  /\ search self "" search_type limit offset filters = [].
Proof.
  split; [|reflexivity].
  unfold search. destruct (String.eqb query ""); [simpl; lia|].
  destruct (String.eqb search_type "keyword"); [apply length_keyword_search|].
  destruct (String.eqb search_type "vector");
    [apply length_vector_search|apply length_hybrid_search].
Qed.

Lemma by_relevance_desc_total (h k : Hit) :
  by_relevance_desc h k = true \/ by_relevance_desc k h = true.
Proof.
  unfold by_relevance_desc. rewrite !Qle_bool_iff.
  destruct (Qlt_le_dec (relevance h) (relevance k)) as [H|H]; [right|left]; auto.
  apply Qlt_le_weak, H.
Qed.

Lemma by_relevance_desc_trans (h k m : Hit) :
  by_relevance_desc h k = true -> by_relevance_desc k m = true ->
  by_relevance_desc h m = true.
Proof.
  unfold by_relevance_desc. rewrite !Qle_bool_iff. intros H1 H2.
  eapply Qle_trans; eauto.
Qed.

Lemma sorted_page {A} (R : A -> A -> Prop) (n m : nat) (l : list A) :
  StronglySorted R l -> StronglySorted R (firstn n (skipn m l)).
Proof.
  intros Hl.
  assert (Hs : StronglySorted R (skipn m l)).
  { clear n. revert l Hl. induction m as [|m IH]; intros l Hl; [exact Hl|].
    destruct l as [|x l]; [constructor|]. simpl. apply IH.
    apply StronglySorted_inv in Hl. tauto. }
  clear Hl. revert n. induction Hs as [|x t Ht IH Hx]; intros [|n]; simpl;
    try constructor.
  - apply IH.
  - rewrite Forall_forall in *. intros y Hy. apply Hx. eapply In_firstn, Hy.
Qed.

Lemma sorted_weaken {A} (R S : A -> A -> Prop) (l : list A) :
  (forall a b, R a b -> S a b) -> StronglySorted R l -> StronglySorted S l.
Proof.
  intros HRS. induction 1 as [|x t Ht IH Hx]; constructor; [exact IH|].
  eapply Forall_impl; [|exact Hx]. intros y. apply HRS.
Qed.

Lemma sorted_by_relevance (l : list Hit) :
  StronglySorted (fun h k => (relevance k <= relevance h)%Q)
                 (stable_sort by_relevance_desc l).
Proof.
  eapply sorted_weaken;
    [|apply (stable_sort_sorted by_relevance_desc by_relevance_desc_total
               by_relevance_desc_trans)].
  intros h k H. apply Qle_bool_iff, H.
Qed.

(** The keyword search and the hybrid search return their results by
    relevance, highest first. *)
Theorem keyword_and_hybrid_results_sorted_by_relevance (self : SearchEngine)
    (query : string) (limit offset : nat) (filters : Filters) :
  StronglySorted (fun h k => (relevance k <= relevance h)%Q)
                 (_keyword_search self query limit offset filters)
  /\ StronglySorted (fun h k => (relevance k <= relevance h)%Q)
                    (_hybrid_search self query limit offset filters).
Proof.
  assert (Hk : forall l o, StronglySorted (fun h k => (relevance k <= relevance h)%Q)
                             (_keyword_search self query l o filters)).
  { intros l o. unfold _keyword_search. apply sorted_by_relevance. }
  split; [apply Hk|]. unfold _hybrid_search.
  destruct (negb (is_ai_enabled self) || is_offline_mode self); [apply Hk|].
  simpl. unfold slice.
  replace (stable_sort by_relevance_desc
             (merge_results (_keyword_search self query limit 0 filters)
                            (_vector_search self query limit 0 filters)))
    with (skipn 0 (stable_sort by_relevance_desc
             (merge_results (_keyword_search self query limit 0 filters)
                            (_vector_search self query limit 0 filters))))
    by reflexivity.
  rewrite skipn_skipn. apply sorted_page, sorted_by_relevance.
Qed.

(** ** Filters, path by path *)

(** Every keyword result matches the query on its body or its title and
    carries the archived and favourite flags that the filters ask for. *)
Theorem keyword_results_match_query_and_flags (self : SearchEngine) (query : string)
    (limit offset : nat) (filters : Filters) (h : Hit) :
  In h (_keyword_search self query limit offset filters) ->
  (like_query query (Some (content (row (dict h)))) = true
   \/ like_query query (title (row (dict h))) = true)
  /\ (forall b, flt_is_archived filters = Some b -> is_archived (row (dict h)) = b)
  /\ (forall b, flt_is_favorite filters = Some b -> is_favorite (row (dict h)) = b).
Proof.
  intros H. apply keyword_search_inv in H. destruct H as (i & _ & Hw & ->). simpl.
  split; [eapply keyword_where_like, Hw|].
  unfold keyword_where in Hw.
  apply andb_true_iff in Hw. destruct Hw as [Hw _].
  apply andb_true_iff in Hw. destruct Hw as [Hw Hfav].
  apply andb_true_iff in Hw. destruct Hw as [_ Harch].
  split; intros b E.
  - rewrite E in Harch. apply eqb_prop, Harch.
  - rewrite E in Hfav. apply eqb_prop, Hfav.
Qed.

Lemma keyword_results_match_query_and_flags_witness :
  (like_query "model" (Some (content (row (dict (keyword_hit rust_go_engine "model"
       (mkIdea 1 "ownership model" (Some "Rust") 100 false false)))))) = true
   \/ like_query "model" (title (row (dict (keyword_hit rust_go_engine "model"
       (mkIdea 1 "ownership model" (Some "Rust") 100 false false))))) = true)
  /\ (forall b, flt_is_archived (mkFilters (Some false) None None) = Some b ->
        is_archived (row (dict (keyword_hit rust_go_engine "model"
          (mkIdea 1 "ownership model" (Some "Rust") 100 false false)))) = b)
  /\ (forall b, flt_is_favorite (mkFilters (Some false) None None) = Some b ->
        is_favorite (row (dict (keyword_hit rust_go_engine "model"
          (mkIdea 1 "ownership model" (Some "Rust") 100 false false)))) = b).
Proof.
  apply (keyword_results_match_query_and_flags rust_go_engine "model" 10 0
           (mkFilters (Some false) None None)).
  left. reflexivity.
Defined.

Lemma keyword_search_any_tag_witness :
  exists tag, In tag [1; 2]%Z
    /\ In (hit_id (keyword_hit tagged_engine "rust"
                     (mkIdea 1 "rust ownership" (Some "Rust") 100 false false)), tag)
          (IdeaTags (database tagged_engine)).
Proof.
  apply (keyword_search_any_tag tagged_engine "rust" 10 0 both_tags 1%Z [2%Z]).
  - reflexivity.
  - left. reflexivity.
Defined.

Lemma vector_search_answered (self : SearchEngine) (query : string) (limit offset : nat)
    (filters : Filters) (similar_ideas : list Similar) :
  is_ai_enabled self = true -> is_offline_mode self = false ->
  search_similar_ideas self query (limit + offset) (metadata_filter_of filters)
  = Return similar_ideas ->
  _vector_search self query limit offset filters
  = flat_map (vector_hit self filters) (slice offset (offset + limit) similar_ideas).
Proof.
  intros Hai Hoff Hs. unfold _vector_search. rewrite Hai, Hoff, Hs. reflexivity.
Qed.

(** When the index answers, every vector result carries all the tags of
    the filter, exists in the store, was named by the index and scores one
    minus its distance. *)
Theorem vector_results_carry_all_tags (self : SearchEngine) (query : string)
    (limit offset : nat) (filters : Filters) (similar_ideas : list Similar) (h : Hit) :
  is_ai_enabled self = true -> is_offline_mode self = false ->
  search_similar_ideas self query (limit + offset) (metadata_filter_of filters)
  = Return similar_ideas ->
  In h (_vector_search self query limit offset filters) ->
  In (row (dict h)) (Ideas (database self))
  /\ (exists similar, In similar similar_ideas /\ sim_idea_id similar = hit_id h
                      /\ relevance h = fsub 1 (distance_or_zero (distance similar)))
  /\ (forall t ts, flt_tag_ids filters = Some (t :: ts) ->
        forall tag, In tag (t :: ts) ->
                    In (hit_id h, tag) (IdeaTags (database self))).
Proof.
  intros Hai Hoff Hs H. rewrite (vector_search_answered _ _ _ _ _ _ Hai Hoff Hs) in H.
  apply in_flat_map in H. destruct H as (s & Hin & H). apply In_slice in Hin.
  pose proof (vector_hit_inv _ _ _ _ H) as (Eid & Erel & _).
  assert (Hrow : In (row (dict h)) (Ideas (database self))
                 /\ tags (dict h) = get_idea_tags self (hit_id h)).
  { revert H. unfold vector_hit, get_idea.
    destruct (find _ _) as [i|] eqn:Ef; [|contradiction].
    apply find_some in Ef. destruct Ef as [Hi Ei]. apply Z.eqb_eq in Ei.
    destruct (flt_tag_ids filters) as [[|t ts]|];
      try destruct (forallb _ _); simpl; intros Hh; try contradiction;
      destruct Hh as [<-|[]]; simpl; rewrite <- Ei; auto. }
  destruct Hrow as [Hrow Etags].
  split; [exact Hrow|]. split; [exists s; auto|].
  intros t ts Ef tag Htag.
  pose proof (vector_hit_all_tags _ _ _ _ _ _ Ef H tag Htag) as Hall.
  rewrite Etags in Hall. apply in_map_iff in Hall. destruct Hall as (tg & Etg & Hall).
  unfold get_idea_tags in Hall. apply In_stable_sort, in_flat_map in Hall.
  destruct Hall as (t0 & _ & Hall). apply in_map_iff in Hall.
  destruct Hall as ([i' tag'] & <- & Hall). apply filter_In in Hall.
  destruct Hall as [Hin' Hc]. apply andb_true_iff in Hc. simpl in Hc.
  destruct Hc as [E1 E2]. apply Z.eqb_eq in E1, E2. subst. exact Hin'.
Qed.

Lemma vector_results_carry_all_tags_witness :
  In (row (dict tagged_vector_hit)) (Ideas (database tagged_engine))
  /\ (exists similar, In similar tagged_similar
                      /\ sim_idea_id similar = hit_id tagged_vector_hit
                      /\ relevance tagged_vector_hit
                         = fsub 1 (distance_or_zero (distance similar)))
  /\ (forall t ts, flt_tag_ids both_tags = Some (t :: ts) ->
        forall tag, In tag (t :: ts) ->
                    In (hit_id tagged_vector_hit, tag) (IdeaTags (database tagged_engine))).
Proof.
  apply (vector_results_carry_all_tags tagged_engine "rust" 10 0 both_tags tagged_similar).
  - reflexivity.
  - reflexivity.
  - reflexivity.
  - left. reflexivity.
Defined.

Lemma hybrid_search_empty_past_two_limits_witness :
  _hybrid_search five_engine "a" 2 4 no_filters = [].
Proof.
  apply (hybrid_search_empty_past_two_limits five_engine "a" 2 4 no_filters).
  - reflexivity.
  - reflexivity.
  - simpl. lia.
Defined.

(** ** Degradation of the hybrid search *)

(** With AI off or in offline mode, every mode of [search] is the keyword
    search. *)
Theorem every_mode_is_keyword_search_without_ai (self : SearchEngine)
    (query search_type : string) (limit offset : nat) (filters : option Filters) :
  is_ai_enabled self = false \/ is_offline_mode self = true ->
  search self query search_type limit offset filters
  = search self query "keyword" limit offset filters.
Proof.
  intros H. unfold search. destruct (String.eqb query ""); [reflexivity|].
  assert (E : negb (is_ai_enabled self) || is_offline_mode self = true).
  { destruct H as [-> | ->]; [reflexivity|apply orb_true_r]. }
  destruct (String.eqb search_type "keyword"); [reflexivity|].
  unfold _vector_search, _hybrid_search. rewrite E.
  destruct (String.eqb search_type "vector"); reflexivity.
Qed.

Lemma every_mode_is_keyword_search_without_ai_witness :
  search rust_go_engine "model" "hybrid" 10 0 None
  = search rust_go_engine "model" "keyword" 10 0 None.
Proof.
  apply (every_mode_is_keyword_search_without_ai rust_go_engine "model" "hybrid" 10 0 None).
  left. reflexivity.
Defined.

Lemma py_max_same (a : Q) : py_max a a = a.
Proof. unfold py_max. destruct (Qle_bool a a); reflexivity. Qed.

Lemma vector_search_on_raise (self : SearchEngine) (query : string) (limit offset : nat)
    (filters : Filters) :
  is_ai_enabled self = true -> is_offline_mode self = false ->
  collection_query self query (limit + offset) (metadata_filter_of filters) = Raise ->
  _vector_search self query limit offset filters
  = _keyword_search self query limit offset filters.
Proof.
  intros Hai Hoff Hq. unfold _vector_search, search_similar_ideas.
  rewrite Hai, Hoff, Hq. reflexivity.
Qed.

(** With AI on and the index raising, the hybrid search merges the keyword
    results with themselves: every result is a keyword match with its
    keyword score, and every result is labelled [both]. *)
Theorem hybrid_labels_all_both_when_index_raises (self : SearchEngine) (query : string)
    (limit offset : nat) (filters : Filters) (h : Hit) :
  is_ai_enabled self = true -> is_offline_mode self = false ->
  primary_key (database self) ->
  collection_query self query (limit + 0) (metadata_filter_of filters) = Raise ->
  In h (_hybrid_search self query limit offset filters) ->
  search_source h = Some both
  /\ exists kh, In kh (_keyword_search self query limit 0 filters)
                /\ dict h = dict kh /\ relevance h = relevance kh.
Proof.
  intros Hai Hoff Hpk Hq H. unfold _hybrid_search in H. rewrite Hai, Hoff in H.
  simpl in H. apply In_slice, In_stable_sort in H.
  rewrite (vector_search_on_raise _ _ _ _ _ Hai Hoff Hq) in H.
  assert (Hkw : NoDup (hit_ids (_keyword_search self query limit 0 filters)))
    by (apply NoDup_keyword_search, Hpk).
  apply In_merge_results in H. destruct H as (k & H).
  destruct (merged_entry _ _ _ _ Hkw Hkw H)
    as [(kh & vh & Hk & Hv & Ek & Ev & ->)
       |[(kh & Hk & Ek & Hnot & _)|(vh & Hv & Ev & Hnot & _)]].
  - assert (vh = kh) as ->.
    { apply (NoDup_map_inj hit_id (_keyword_search self query limit 0 filters));
        [exact Hkw|exact Hv|exact Hk|congruence]. }
    simpl. split; [reflexivity|]. exists kh. rewrite py_max_same. auto.
  - exfalso. apply Hnot. rewrite <- Ek. apply in_map, Hk.
  - exfalso. apply Hnot. rewrite <- Ev. apply in_map, Hv.
Qed.

Lemma hybrid_labels_all_both_when_index_raises_witness :
  search_source (mkHit (mkIdeaDict (mkIdea 1 "ownership model" (Some "Rust") 100 false false) [])
                       (1 # 10) (Some both)) = Some both
  /\ exists kh, In kh (_keyword_search unreachable_engine "model" 10 0 no_filters)
       /\ dict (mkHit (mkIdeaDict (mkIdea 1 "ownership model" (Some "Rust") 100 false false) [])
                      (1 # 10) (Some both)) = dict kh
       /\ relevance (mkHit (mkIdeaDict (mkIdea 1 "ownership model" (Some "Rust") 100 false false) [])
                           (1 # 10) (Some both)) = relevance kh.
Proof.
  apply (hybrid_labels_all_both_when_index_raises unreachable_engine "model" 10 0 no_filters).
  - reflexivity.
  - reflexivity.
  - exact primary_key_rust_go.
  - reflexivity.
  - left. reflexivity.
Defined.

(** ** Related ideas: size, exclusions, curated order *)

Lemma length_related_from_relations (self : SearchEngine) (id : Z) (limit : nat) :
  List.length (related_from_relations self id limit) <= limit.
Proof. unfold related_from_relations. apply firstn_le_length. Qed.

Lemma length_tag_tier (self : SearchEngine) (id : Z) (limit : nat) (from_relations : list Idea) :
  List.length from_relations <= limit ->
  List.length (tag_tier self id limit from_relations) <= limit.
Proof.
  intros H. unfold tag_tier. destruct (get_idea_tags self id).
  - rewrite length_map. exact H.
  - apply firstn_le_length.
Qed.

(** [get_related_ideas] returns at most [limit] ideas, whichever tiers run. *)
Theorem related_ideas_at_most_limit (self : SearchEngine) (id : Z) (limit : nat) :
  List.length (get_related_ideas self id limit) <= limit.
Proof.
  unfold get_related_ideas. destruct (get_idea self id) as [idea|]; [|simpl; lia].
  pose proof (length_related_from_relations self id limit) as Hfr.
  destruct (limit <=? List.length (related_from_relations self id limit));
    [apply firstn_le_length|].
  destruct (is_ai_enabled self && negb (is_offline_mode self));
    [|apply length_tag_tier, Hfr].
  destruct (search_similar_ideas self (content (row idea))
              (limit - List.length (related_from_relations self id limit) + 1) None);
    simpl; [apply firstn_le_length|apply length_tag_tier, Hfr].
Qed.

Lemma vector_related_not_source (self : SearchEngine) (id : Z) (remaining : nat)
    (similar_ideas : list Similar) (r : RelatedIdea) :
  In r (vector_related self id remaining similar_ideas) ->
  related_id r <> id /\ In (rel_row r) (Ideas (database self)).
Proof.
  unfold vector_related. intros H. apply in_flat_map in H.
  destruct H as (s & Hs & H). apply In_firstn, filter_In in Hs.
  destruct Hs as [_ Hne]. apply negb_true_iff, Z.eqb_neq in Hne.
  unfold get_idea in H. destruct (find _ _) as [i|] eqn:Ef; [|contradiction].
  apply find_some in Ef. destruct Ef as [Hi Ei]. apply Z.eqb_eq in Ei.
  destruct H as [<-|[]]. unfold related_id. simpl. split; [congruence|exact Hi].
Qed.

Lemma tag_tier_not_source (self : SearchEngine) (id : Z) (limit : nat)
    (from_relations : list Idea) (r : RelatedIdea) :
  In r (tag_tier self id limit from_relations) ->
  In (rel_row r) from_relations
  \/ (related_id r <> id /\ ~ In (related_id r) (map idea_id from_relations)
      /\ In (rel_row r) (Ideas (database self))).
Proof.
  unfold tag_tier. destruct (get_idea_tags self id) as [|t ts].
  - intros H. apply in_map_iff in H. destruct H as (i & <- & H). left. exact H.
  - cbv zeta. intros H. apply In_firstn, in_app_or in H. destruct H as [H|H].
    + apply in_map_iff in H. destruct H as (i & <- & H). left. exact H.
    + apply in_map_iff in H. destruct H as (i & <- & H). right.
      unfold tag_results in H. apply In_firstn, In_stable_sort, In_tag_candidates in H.
      unfold related_id. simpl. tauto.
Qed.

(** The vector tier and the tag tier never return the idea itself, and the
    tag tier never returns a curated idea again: an idea of the result that
    is the source came from the relations table.  Every returned idea is in
    the store. *)
Theorem related_ideas_exclude_source_outside_relations (self : SearchEngine) (id : Z)
    (limit : nat) (r : RelatedIdea) :
  In r (get_related_ideas self id limit) ->
  In (rel_row r) (Ideas (database self))
  /\ (related_id r = id -> In id (map idea_id (related_from_relations self id limit))).
Proof.
  assert (Hfr : forall i, In i (related_from_relations self id limit) ->
                          In i (Ideas (database self))).
  { intros i H. unfold related_from_relations in H.
    apply In_firstn, in_map_iff in H. destruct H as ([i' rel] & <- & H).
    apply In_stable_sort, in_flat_map in H. destruct H as (j & Hj & H).
    apply in_map_iff in H. destruct H as (rel' & [= <- <-] & _). exact Hj. }
  assert (Hin : forall i, In i (related_from_relations self id limit) ->
                  idea_id i = id -> In id (map idea_id (related_from_relations self id limit))).
  { intros i H <-. apply in_map, H. }
  unfold get_related_ideas. destruct (get_idea self id) as [idea|]; [|contradiction].
  destruct (limit <=? List.length (related_from_relations self id limit)).
  - intros H. apply In_firstn, in_map_iff in H. destruct H as (i & <- & H).
    split; [apply Hfr, H|apply Hin, H].
  - assert (Htag : In r (tag_tier self id limit (related_from_relations self id limit)) ->
                   In (rel_row r) (Ideas (database self))
                   /\ (related_id r = id ->
                       In id (map idea_id (related_from_relations self id limit)))).
    { intros H. apply tag_tier_not_source in H. destruct H as [H|(Hne & _ & Hi)].
      - split; [apply Hfr, H|apply Hin, H].
      - split; [exact Hi|contradiction]. }
    destruct (is_ai_enabled self && negb (is_offline_mode self)); [|exact Htag].
    destruct (search_similar_ideas self (content (row idea)) _ None); simpl;
      [|exact Htag].
    intros H. apply In_firstn, in_app_or in H. destruct H as [H|H].
    + apply in_map_iff in H. destruct H as (i & <- & H).
      split; [apply Hfr, H|apply Hin, H].
    + apply vector_related_not_source in H. destruct H as [Hne Hi].
      split; [exact Hi|contradiction].
Qed.

Lemma related_ideas_exclude_source_outside_relations_witness :
  In (rel_row (with_tags related_offline_engine (mkIdea 7 "neighbour" None 7 false false)))
     (Ideas (database related_offline_engine))
  /\ (related_id (with_tags related_offline_engine (mkIdea 7 "neighbour" None 7 false false))
      = 5%Z ->
      In 5%Z (map idea_id (related_from_relations related_offline_engine 5 2))).
Proof.
  apply (related_ideas_exclude_source_outside_relations related_offline_engine 5 2).
  right. left. reflexivity.
Defined.

Lemma ranked_candidates_distinct (self : SearchEngine) (id : Z) (tag_ids excluded : list Z)
    (remaining : nat) :
  primary_key (database self) ->
  NoDup (map idea_id (tag_results self id tag_ids excluded remaining)).
Proof.
  intros Hpk. unfold tag_results. rewrite <- firstn_map. apply (NoDup_page remaining 0).
  eapply Permutation_NoDup; [apply Permutation_map, stable_sort_perm|].
  unfold tag_candidates. apply where_keeps_primary_key, Hpk.
Qed.

(** When the vector tier does not run, the result repeats no idea as long as
    the relations table names no target of the idea twice. *)
Theorem related_ideas_distinct_without_vector_tier (self : SearchEngine) (id : Z)
    (limit : nat) :
  primary_key (database self) ->
  NoDup (map idea_id (related_from_relations self id limit)) ->
  is_ai_enabled self = false \/ is_offline_mode self = true ->
  NoDup (map related_id (get_related_ideas self id limit)).
Proof.
  intros Hpk Hfr Hoff. unfold get_related_ideas.
  destruct (get_idea self id) as [idea|]; [|constructor].
  destruct (limit <=? List.length (related_from_relations self id limit)) eqn:El.
  - rewrite <- firstn_map, related_id_with_tags. apply (NoDup_page limit 0), Hfr.
  - apply Nat.leb_gt in El.
    assert (E : is_ai_enabled self && negb (is_offline_mode self) = false).
    { destruct Hoff as [-> | ->]; [reflexivity|apply andb_false_r]. }
    rewrite E.
    destruct (tag_tier_result self id limit _ El) as [-> _].
    apply NoDup_app; [exact Hfr| |].
    + apply (ranked_candidates_distinct self id _ _ _ Hpk).
    + intros k Hk Hk'. apply in_map_iff in Hk'. destruct Hk' as (i & <- & Hi).
      apply In_firstn, In_stable_sort, In_tag_candidates in Hi. tauto.
Qed.

Lemma primary_key_related : primary_key related_store.
Proof.
  unfold primary_key. simpl. repeat constructor; simpl; intuition discriminate.
Qed.

Lemma related_ideas_distinct_without_vector_tier_witness :
  NoDup (map related_id (get_related_ideas related_offline_engine 5 2)).
Proof.
  apply (related_ideas_distinct_without_vector_tier related_offline_engine 5 2).
  - exact primary_key_related.
  - simpl. repeat constructor. intros [].
  - right. reflexivity.
Defined.

Lemma by_confidence_desc_total (a b : Idea * Relation) :
  by_confidence_desc a b = true \/ by_confidence_desc b a = true.
Proof.
  unfold by_confidence_desc. rewrite !Qle_bool_iff.
  destruct (Qlt_le_dec (confidence (snd a)) (confidence (snd b))) as [H|H];
    [right|left]; auto.
  apply Qlt_le_weak, H.
Qed.

Lemma by_confidence_desc_trans (a b c : Idea * Relation) :
  by_confidence_desc a b = true -> by_confidence_desc b c = true ->
  by_confidence_desc a c = true.
Proof.
  unfold by_confidence_desc. rewrite !Qle_bool_iff. intros H1 H2.
  eapply Qle_trans; eauto.
Qed.

(** When the relations table fills [limit], the result is the [limit]
    strongest curated relations of the idea, strongest first, each with its
    tags; the AI switches and the index play no part. *)
Theorem curated_relations_alone_when_they_fill_the_limit (self : SearchEngine) (id : Z)
    (limit : nat) (idea : IdeaDict) :
  get_idea self id = Some idea ->
  limit <= List.length (related_from_relations self id limit) ->
  get_related_ideas self id limit
  = map (with_tags self) (related_from_relations self id limit)
  /\ List.length (get_related_ideas self id limit) = limit
  /\ exists edges : list (Idea * Relation),
       related_from_relations self id limit = map fst (firstn limit edges)
       /\ StronglySorted
            (fun a b => (confidence (snd b) <= confidence (snd a))%Q) edges
       /\ forall i r, In (i, r) edges <->
                      In i (Ideas (database self)) /\ In r (Relations (database self))
                      /\ source_idea_id r = id /\ target_idea_id r = idea_id i.
Proof.
  intros Hget Hlen.
  pose proof (length_related_from_relations self id limit) as Hle.
  assert (E : get_related_ideas self id limit
              = map (with_tags self) (related_from_relations self id limit)).
  { unfold get_related_ideas. rewrite Hget.
    apply Nat.leb_le in Hlen. rewrite Hlen. apply firstn_all2.
    rewrite length_map. exact Hle. }
  split; [exact E|]. split; [rewrite E, length_map; lia|].
  unfold related_from_relations.
  eexists. split; [apply firstn_map|]. split.
  - eapply sorted_weaken;
      [|apply (stable_sort_sorted by_confidence_desc by_confidence_desc_total
                 by_confidence_desc_trans)].
    intros a b H. apply Qle_bool_iff, H.
  - intros i r. rewrite In_stable_sort, in_flat_map. split.
    + intros (j & Hj & H). apply in_map_iff in H. destruct H as (r' & [= <- <-] & H).
      apply filter_In in H. destruct H as [Hr Hc].
      apply andb_true_iff in Hc. destruct Hc as [E1 E2].
      apply Z.eqb_eq in E1, E2. auto.
    + intros (Hi & Hr & Es & Et). exists i. split; [exact Hi|].
      apply in_map, filter_In. split; [exact Hr|].
      rewrite Es, Et, !Z.eqb_refl. reflexivity.
Qed.

Lemma curated_relations_alone_when_they_fill_the_limit_witness :
  get_related_ideas curated_engine 5 2
  = map (with_tags curated_engine) (related_from_relations curated_engine 5 2)
  /\ List.length (get_related_ideas curated_engine 5 2) = 2
  /\ exists edges : list (Idea * Relation),
       related_from_relations curated_engine 5 2 = map fst (firstn 2 edges)
       /\ StronglySorted
            (fun a b => (confidence (snd b) <= confidence (snd a))%Q) edges
       /\ forall i r, In (i, r) edges <->
                      In i (Ideas (database curated_engine))
                      /\ In r (Relations (database curated_engine))
                      /\ source_idea_id r = 5%Z /\ target_idea_id r = idea_id i.
Proof.
  apply (curated_relations_alone_when_they_fill_the_limit curated_engine 5 2
           (mkIdeaDict (mkIdea 5 "source" None 5 false false) [])).
  - reflexivity.
  - vm_compute. lia.
Defined.

(** * The embedding generator *)

Example str_split_drops_blank_runs :
  str_split (list_ascii_of_string "  to be  or not ")
  = map list_ascii_of_string ["to"; "be"; "or"; "not"].
Proof. reflexivity. Qed.

Example fallback_embedding_counts_words :
  firstn 3 (generate_fallback_embedding sample_runtime "Tea tea milk")
  = [1%Q; 1 # 2; 0%Q].
Proof. vm_compute. reflexivity. Qed.

Lemma length_fallback_embedding (rt : Runtime) (text : string) :
  List.length (generate_fallback_embedding rt text) = embedding_dim.
Proof.
  unfold generate_fallback_embedding. cbv zeta.
  set (vector := if negb _ then _ else _).
  destruct (Nat.ltb_spec (List.length vector) embedding_dim) as [H|H].
  - rewrite length_app, repeat_length. lia.
  - rewrite length_firstn. lia.
Qed.

(** The fallback embedding has exactly [embedding_dim] = 1536 entries for
    every text, the empty one included, however the runtime walks the word
    set and whatever norm it computes. *)
Theorem fallback_embedding_has_fixed_dimension (rt : Runtime) (text : string) :
  List.length (generate_fallback_embedding rt text) = 1536.
Proof. exact (length_fallback_embedding rt text). Qed.

Lemma generate_embedding_none_iff (self : EmbeddingGenerator) (text : string) :
  generate_embedding self text = None <-> text = "".
Proof.
  unfold generate_embedding. destruct (String.eqb_spec text "") as [->|Hne].
  - tauto.
  - destruct (ai_service_generate_embedding self text); split; intros H;
      try discriminate; contradiction.
Qed.

(** Through the local fallback, an embedding computed while the AI service
    answers nothing has 1536 entries, and only the empty text gets none. *)
Theorem local_embedding_without_service (rt : Runtime)
    (ai_service : string -> option (list Q)) (text : string) :
  text <> "" -> ai_service text = None ->
  exists v, generate_embedding (local_generator rt ai_service) text = Some v
            /\ List.length v = 1536.
Proof.
  intros Hne Hai. unfold generate_embedding, local_generator. simpl.
  destruct (String.eqb_spec text "") as [E|_]; [contradiction|].
  rewrite Hai. eexists. split; [reflexivity|apply length_fallback_embedding].
Qed.

Lemma local_embedding_without_service_witness :
  exists v, generate_embedding (local_generator sample_runtime (fun _ => None)) "tea"
            = Some v
            /\ List.length v = 1536.
Proof.
  apply (local_embedding_without_service sample_runtime (fun _ => None) "tea").
  - discriminate.
  - reflexivity.
Defined.

(** A batch has one answer per text, in order, and the answers that are
    [None] are exactly those of the empty texts. *)
Theorem batch_embeddings_align_with_texts (self : EmbeddingGenerator)
    (texts : list string) :
  List.length (batch_generate_embeddings self texts) = List.length texts
  /\ forall i, nth_error (batch_generate_embeddings self texts) i = Some None
               <-> nth_error texts i = Some "".
Proof.
  assert (E : batch_generate_embeddings self texts = map (generate_embedding self) texts).
  { destruct texts; reflexivity. }
  rewrite E. split; [apply length_map|].
  intros i. rewrite nth_error_map.
  destruct (nth_error texts i) as [text|]; simpl; [|split; discriminate].
  split.
  - intros [= H]. apply generate_embedding_none_iff in H. congruence.
  - intros [= ->]. reflexivity.
Qed.

Lemma fmul_comm (a b : Q) : fmul a b = fmul b a.
Proof. unfold fmul. apply Qred_complete, Qmult_comm. Qed.

Lemma np_dot_comm (a b : list Q) : np_dot a b = np_dot b a.
Proof.
  unfold np_dot. generalize 0%Q. revert b.
  induction a as [|x a IH]; intros [|y b] acc; simpl; try reflexivity.
  rewrite (fmul_comm x y). apply IH.
Qed.

(** The similarity does not depend on the order of its arguments: the same
    number, or the same [ValueError] when the lengths differ. *)
Theorem calculate_similarity_symmetric (rt : Runtime)
    (embedding1 embedding2 : option (list Q)) :
  calculate_similarity rt embedding1 embedding2
  = calculate_similarity rt embedding2 embedding1.
Proof.
  destruct embedding1 as [a|], embedding2 as [b|]; simpl; try reflexivity.
  rewrite (Nat.eqb_sym (List.length b) (List.length a)).
  destruct (List.length a =? List.length b); [|reflexivity].
  rewrite (orb_comm (Qeq_bool (np_linalg_norm rt b) 0)).
  rewrite (np_dot_comm b a), (fmul_comm (np_linalg_norm rt b)). reflexivity.
Qed.

(** * Generated titles *)

Example generate_title_short : _generate_title "  buy milk " = "buy milk".
Proof. reflexivity. Qed.

Example generate_title_long :
  _generate_title "a very long thought about everything" = "a very long thought...".
Proof. reflexivity. Qed.

Lemma lstrip_shorter (s : chars) : List.length (lstrip s) <= List.length s.
Proof.
  induction s as [|c s IH]; simpl; [lia|]. destruct (is_space c); simpl; lia.
Qed.

Lemma strip_shorter (s : chars) : List.length (strip s) <= List.length s.
Proof.
  unfold strip, rstrip. rewrite length_rev.
  etransitivity; [apply lstrip_shorter|]. rewrite length_rev. apply lstrip_shorter.
Qed.

Lemma lstrip_head (s : chars) (c : ascii) (r : chars) :
  lstrip s = c :: r -> is_space c = false.
Proof.
  induction s as [|d s IH]; simpl; [discriminate|].
  destruct (is_space d) eqn:E; [exact IH|]. intros [= <- _]. exact E.
Qed.

Lemma lstrip_keeps_last (s : chars) (c : ascii) :
  is_space c = false -> exists u, lstrip (s ++ [c]) = u ++ [c].
Proof.
  intros Hc. induction s as [|d s IH]; simpl.
  - rewrite Hc. exists []. reflexivity.
  - destruct (is_space d); [exact IH|]. exists (d :: s). reflexivity.
Qed.

Lemma strip_head (s : chars) (c : ascii) (r : chars) :
  strip s = c :: r -> is_space c = false.
Proof.
  unfold strip, rstrip. destruct (lstrip s) as [|d t] eqn:E; [discriminate|].
  pose proof (lstrip_head _ _ _ E) as Hd.
  simpl rev. destruct (lstrip_keeps_last (rev t) d Hd) as (u & ->).
  rewrite rev_app_distr. simpl. intros [= <- _]. exact Hd.
Qed.

Lemma strip_last (s : chars) (c : ascii) (r : chars) :
  strip s = r ++ [c] -> is_space c = false.
Proof.
  unfold strip, rstrip. intros H.
  apply (f_equal (@rev ascii)) in H. rewrite rev_involutive, rev_app_distr in H.
  simpl in H. eapply lstrip_head, H.
Qed.

Lemma length_chars_of_string (s : string) :
  List.length (list_ascii_of_string s) = String.length s.
Proof. induction s as [|c s IH]; simpl; congruence. Qed.

(** A generated title has at most 23 characters, no more than the content
    when the content has at most 20, and neither starts nor ends with
    whitespace. *)
Theorem generated_title_is_short_and_trimmed (content : string) :
  let title := list_ascii_of_string (_generate_title content) in
  List.length title <= 23
  /\ (String.length content <= 20 -> List.length title <= String.length content)
  /\ (forall c r, title = c :: r -> is_space c = false)
  /\ (forall c r, title = r ++ [c] -> is_space c = false).
Proof.
  unfold _generate_title. cbv zeta. rewrite list_ascii_of_string_of_list_ascii.
  rewrite <- (length_chars_of_string content).
  set (l := list_ascii_of_string content).
  pose proof (strip_shorter (firstn 20 l)) as Hs.
  pose proof (firstn_le_length 20 l) as H20.
  pose proof (length_firstn 20 l) as Hf.
  destruct (Nat.ltb_spec 20 (List.length l)) as [Hlong|Hshort].
  - repeat split.
    + rewrite length_app. change (List.length (list_ascii_of_string "...")) with 3. lia.
    + lia.
    + intros c r E. destruct (strip (firstn 20 l)) as [|d t] eqn:Es.
      * simpl in E. injection E as <- _. reflexivity.
      * simpl in E. injection E as <- _. eapply strip_head, Es.
    + intros c r E.
      change (strip (firstn 20 l) ++ list_ascii_of_string "...")
        with (strip (firstn 20 l) ++ ["."%char; "."%char] ++ ["."%char]) in E.
      rewrite !app_assoc in E. apply app_inj_tail in E. destruct E as [_ <-].
      reflexivity.
  - repeat split.
    + lia.
    + lia.
    + intros c r E. eapply strip_head, E.
    + intros c r E. eapply strip_last, E.
Qed.

(** * The fallback analysis *)

Example analyze_fallback_tags :
  an_tags (_analyze_idea_fallback "the cat and the hat and the bat in a hat")
  = map list_ascii_of_string ["the"; "and"; "hat"; "cat"; "bat"].
Proof. vm_compute. reflexivity. Qed.

Section PyDictFacts.
Context {K V : Type}.
Variable key_eq_dec : forall a b : K, {a = b} + {a <> b}.

Lemma py_get_set_same (d : list (K * V)) (k : K) (v : V) :
  py_get key_eq_dec (py_set key_eq_dec k v d) k = Some v.
Proof.
  induction d as [|[k' v'] d IH]; simpl.
  - destruct (key_eq_dec k k); congruence.
  - destruct (key_eq_dec k' k) as [E|E]; simpl.
    + destruct (key_eq_dec k k); congruence.
    + destruct (key_eq_dec k' k); [contradiction|exact IH].
Qed.

Lemma py_get_set_other (d : list (K * V)) (k k' : K) (v : V) :
  k' <> k -> py_get key_eq_dec (py_set key_eq_dec k v d) k' = py_get key_eq_dec d k'.
Proof.
  intros Hne. induction d as [|[k0 v0] d IH]; simpl.
  - destruct (key_eq_dec k k'); congruence.
  - destruct (key_eq_dec k0 k) as [E|E]; simpl.
    + subst k0. destruct (key_eq_dec k k'); congruence.
    + destruct (key_eq_dec k0 k'); [reflexivity|exact IH].
Qed.

Lemma py_keys_set (d : list (K * V)) (k k' : K) (v : V) :
  In k' (map fst (py_set key_eq_dec k v d)) <-> k' = k \/ In k' (map fst d).
Proof.
  induction d as [|[k0 v0] d IH]; simpl; [intuition|].
  destruct (key_eq_dec k0 k) as [E|E]; simpl; [subst; intuition|].
  rewrite IH. intuition.
Qed.

Lemma py_set_NoDup (d : list (K * V)) (k : K) (v : V) :
  NoDup (map fst d) -> NoDup (map fst (py_set key_eq_dec k v d)).
Proof.
  induction d as [|[k0 v0] d IH]; simpl; intros Hnd.
  - repeat constructor. intros [].
  - apply NoDup_cons_iff in Hnd. destruct Hnd as [Hfresh Hnd].
    destruct (key_eq_dec k0 k) as [E|E]; simpl.
    + subst. apply NoDup_cons; assumption.
    + apply NoDup_cons; [|apply IH, Hnd].
      intros H. apply py_keys_set in H. destruct H as [H|H]; [congruence|].
      apply Hfresh, H.
Qed.

Lemma py_item_get (d : list (K * V)) (k : K) (v : V) :
  NoDup (map fst d) -> In (k, v) d -> py_get key_eq_dec d k = Some v.
Proof.
  induction d as [|[k0 v0] d IH]; simpl; [tauto|].
  intros Hnd H. apply NoDup_cons_iff in Hnd. destruct Hnd as [Hfresh Hnd].
  destruct H as [[= -> ->]|H].
  - destruct (key_eq_dec k k); congruence.
  - destruct (key_eq_dec k0 k) as [E|E]; [|apply IH; assumption].
    subst. exfalso. apply Hfresh. change k with (fst (k, v)). apply in_map, H.
Qed.

Lemma py_get_item (d : list (K * V)) (k : K) (v : V) :
  py_get key_eq_dec d k = Some v -> In (k, v) d.
Proof.
  induction d as [|[k0 v0] d IH]; simpl; [discriminate|].
  destruct (key_eq_dec k0 k) as [E|E].
  - intros [= ->]. subst. left. reflexivity.
  - intros H. right. apply IH, H.
Qed.

Lemma py_get_absent (d : list (K * V)) (k : K) :
  py_get key_eq_dec d k = None <-> ~ In k (map fst d).
Proof.
  induction d as [|[k0 v0] d IH]; simpl; [tauto|].
  destruct (key_eq_dec k0 k) as [E|E].
  - split; [discriminate|]. intros H. exfalso. apply H. left. exact E.
  - rewrite IH. tauto.
Qed.
End PyDictFacts.

Lemma count_word_freq (d : list (chars * nat)) (w k : chars) :
  freq_of (count_word d w) k
  = freq_of d k + (if 2 <? List.length w
                   then (if chars_eq_dec w k then 1 else 0) else 0).
Proof.
  unfold count_word, freq_of. destruct (2 <? List.length w); [|lia].
  destruct (chars_eq_dec w k) as [->|Hne].
  - rewrite py_get_set_same. reflexivity.
  - rewrite py_get_set_other by congruence. lia.
Qed.

Lemma count_word_keys (d : list (chars * nat)) (w k : chars) :
  In k (map fst (count_word d w)) <->
  In k (map fst d) \/ (k = w /\ 2 < List.length w).
Proof.
  unfold count_word. destruct (Nat.ltb_spec 2 (List.length w)) as [H|H].
  - rewrite py_keys_set. intuition.
  - intuition lia.
Qed.

Lemma count_word_NoDup (d : list (chars * nat)) (w : chars) :
  NoDup (map fst d) -> NoDup (map fst (count_word d w)).
Proof.
  unfold count_word. destruct (2 <? List.length w); [apply py_set_NoDup|auto].
Qed.

Lemma word_freq_counts (words : list chars) (d : list (chars * nat)) (k : chars) :
  freq_of (fold_left count_word words d) k
  = freq_of d k + (if 2 <? List.length k then count_occ chars_eq_dec words k else 0).
Proof.
  revert d. induction words as [|w words IH]; intros d; simpl.
  - destruct (2 <? List.length k); lia.
  - rewrite IH, count_word_freq.
    destruct (chars_eq_dec w k) as [->|Hne].
    + destruct (2 <? List.length k); lia.
    + destruct (2 <? List.length w), (2 <? List.length k); lia.
Qed.

Lemma word_freq_keys (words : list chars) (d : list (chars * nat)) (k : chars) :
  In k (map fst (fold_left count_word words d)) <->
  In k (map fst d) \/ (In k words /\ 2 < List.length k).
Proof.
  revert d. induction words as [|w words IH]; intros d; simpl.
  - tauto.
  - rewrite IH, count_word_keys. split.
    + intros [[H|[-> H]]|[H1 H2]]; auto.
    + intros [H|[[->|H1] H2]]; auto.
Qed.

Lemma word_freq_NoDup (words : list chars) (d : list (chars * nat)) :
  NoDup (map fst d) -> NoDup (map fst (fold_left count_word words d)).
Proof.
  revert d. induction words as [|w words IH]; intros d H; simpl; [exact H|].
  apply IH, count_word_NoDup, H.
Qed.

Lemma word_freq_item (words : list chars) (k : chars) (n : nat) :
  In (k, n) (fold_left count_word words []) ->
  In k words /\ 2 < List.length k /\ n = count_occ chars_eq_dec words k.
Proof.
  intros H.
  assert (Hk : In k (map fst (fold_left count_word words []))).
  { change k with (fst (k, n)). apply in_map, H. }
  apply word_freq_keys in Hk. destruct Hk as [[]|[Hk Hlen]].
  split; [exact Hk|]. split; [exact Hlen|].
  pose proof (word_freq_counts words [] k) as E.
  unfold freq_of at 1 in E.
  rewrite (py_item_get chars_eq_dec _ _ _ (word_freq_NoDup words [] (NoDup_nil _)) H) in E.
  apply Nat.ltb_lt in Hlen. rewrite Hlen in E. exact E.
Qed.

Lemma by_frequency_desc_total (a b : chars * nat) :
  by_frequency_desc a b = true \/ by_frequency_desc b a = true.
Proof. unfold by_frequency_desc. rewrite !Nat.leb_le. lia. Qed.

Lemma by_frequency_desc_trans (a b c : chars * nat) :
  by_frequency_desc a b = true -> by_frequency_desc b c = true ->
  by_frequency_desc a c = true.
Proof. unfold by_frequency_desc. rewrite !Nat.leb_le. lia. Qed.

Lemma sorted_across_cut {A} (R : A -> A -> Prop) (n : nat) (l : list A) (x y : A) :
  StronglySorted R l -> In x (firstn n l) -> In y (skipn n l) -> R x y.
Proof.
  intros Hs. revert n. induction Hs as [|z t Ht IH Hz]; intros n Hx Hy.
  - rewrite firstn_nil in Hx. contradiction.
  - destruct n as [|n]; [contradiction|]. simpl in Hx, Hy.
    destruct Hx as [<-|Hx]; [|eapply IH; eauto].
    rewrite Forall_forall in Hz. apply Hz. eapply In_skipn, Hy.
Qed.

(** The tags of the fallback analysis are the (at most five) most frequent
    words of the lower-cased content among those longer than two
    characters: no tag twice, no eligible word left out while a slot is
    free, and no word left out that occurs more often than a tag. *)
Theorem fallback_tags_are_most_frequent_words (content : string) :
  let words := str_split (lower (list_ascii_of_string content)) in
  let tags := an_tags (_analyze_idea_fallback content) in
  List.length tags <= 5
  /\ NoDup tags
  /\ (forall t, In t tags -> In t words /\ 2 < List.length t)
  /\ (forall t w, In t tags -> In w words -> 2 < List.length w -> ~ In w tags ->
        count_occ chars_eq_dec words w <= count_occ chars_eq_dec words t)
  /\ (List.length tags < 5 ->
      forall w, In w words -> 2 < List.length w -> In w tags).
Proof.
  intros words tags. unfold tags, _analyze_idea_fallback. cbv zeta. cbn [an_tags].
  fold words.
  set (word_freq := fold_left count_word words []).
  set (sorted := stable_sort by_frequency_desc word_freq).
  assert (Hnd : NoDup (map fst sorted)).
  { eapply Permutation_NoDup; [apply Permutation_map, stable_sort_perm|].
    apply word_freq_NoDup. constructor. }
  assert (Hs : StronglySorted (fun a b => by_frequency_desc a b = true) sorted).
  { apply stable_sort_sorted;
      [exact by_frequency_desc_total|exact by_frequency_desc_trans]. }
  assert (Hitem : forall k n, In (k, n) sorted ->
            In k words /\ 2 < List.length k /\ n = count_occ chars_eq_dec words k).
  { intros k n H. apply In_stable_sort in H. apply word_freq_item, H. }
  assert (Hall : forall w, In w words -> 2 < List.length w ->
                   exists n, In (w, n) sorted).
  { intros w Hw Hlen.
    assert (Hk : In w (map fst word_freq)) by (apply word_freq_keys; auto).
    apply in_map_iff in Hk. destruct Hk as ([k n] & E & Hk). simpl in E. subst k.
    exists n. apply In_stable_sort, Hk. }
  split; [rewrite length_map; apply firstn_le_length|].
  split; [rewrite <- firstn_map; apply (NoDup_page 5 0), Hnd|].
  split; [|split].
  - intros t Ht. apply in_map_iff in Ht. destruct Ht as ([k n] & <- & Ht).
    apply In_firstn, Hitem in Ht. simpl. tauto.
  - intros t w Ht Hw Hlen Hnot.
    apply in_map_iff in Ht. destruct Ht as ([k n] & <- & Ht). simpl.
    destruct (Hall w Hw Hlen) as (m & Hm).
    assert (Hcut : In (w, m) (skipn 5 sorted)).
    { rewrite <- (firstn_skipn 5 sorted) in Hm. apply in_app_or in Hm.
      destruct Hm as [Hm|Hm]; [|exact Hm].
      exfalso. apply Hnot. change w with (fst (w, m)). apply in_map, Hm. }
    pose proof (sorted_across_cut _ 5 sorted _ _ Hs Ht Hcut) as Hle.
    unfold by_frequency_desc in Hle. apply Nat.leb_le in Hle. simpl in Hle.
    destruct (Hitem _ _ (In_firstn _ _ _ Ht)) as (_ & _ & ->).
    destruct (Hitem _ _ (In_skipn _ _ _ Hcut)) as (_ & _ & ->). exact Hle.
  - rewrite length_map, length_firstn. intros Hshort w Hw Hlen.
    destruct (Hall w Hw Hlen) as (m & Hm).
    rewrite firstn_all2 by lia. change w with (fst (w, m)). apply in_map, Hm.
Qed.

Lemma split_on_first (sep : ascii) (s : chars) :
  exists l0 rest, split_on sep s = l0 :: rest
    /\ ~ In sep l0
    /\ (forall c r, l0 = c :: r -> exists r', s = c :: r').
Proof.
  induction s as [|d s IH]; simpl.
  - exists [], []. repeat split; [tauto|discriminate].
  - destruct (Ascii.eqb_spec d sep) as [->|Hne].
    + exists [], (split_on sep s). repeat split; [tauto|discriminate].
    + destruct IH as (l0 & rest & -> & Hnot & _).
      exists (d :: l0), rest. repeat split.
      * simpl. intros [H|H]; [congruence|tauto].
      * intros c r [= <- _]. exists s. reflexivity.
Qed.

(** The title of the fallback analysis has at most 20 characters, holds no
    line break and does not start with whitespace; the summary is the first
    100 characters of the content. *)
Theorem fallback_title_and_summary_are_prefixes (content : string) :
  let analysis := _analyze_idea_fallback content in
  List.length (an_title analysis) <= 20
  /\ ~ In newline (an_title analysis)
  /\ (forall c r, an_title analysis = c :: r -> is_space c = false)
  /\ an_summary analysis = firstn 100 (list_ascii_of_string content)
  /\ List.length (an_summary analysis) <= 100.
Proof.
  unfold _analyze_idea_fallback. cbv zeta. cbn [an_title an_summary].
  set (l := list_ascii_of_string content).
  destruct (split_on_first newline (strip l)) as (l0 & rest & -> & Hnot & Hhead).
  assert (Hsum : (if 100 <? List.length l then firstn 100 l else l) = firstn 100 l).
  { destruct (Nat.ltb_spec 100 (List.length l)); [reflexivity|].
    symmetry. apply firstn_all2. assumption. }
  rewrite Hsum. repeat split.
  - apply firstn_le_length.
  - intros H. apply Hnot. eapply In_firstn, H.
  - intros c r E. destruct l0 as [|d l0]; [rewrite firstn_nil in E; discriminate|].
    simpl in E. injection E as -> _.
    destruct (Hhead c l0 eq_refl) as (r' & Hr'). eapply strip_head, Hr'.
  - apply firstn_le_length.
Qed.

(** * Keyword embeddings *)

Example py_int_accepts_python_literals :
  map (fun s => py_int (list_ascii_of_string s)) [" 42 "; "-7"; "+1_000"; "007"]
  = [Return 42%Z; Return (-7)%Z; Return 1000%Z; Return 7%Z].
Proof. vm_compute. reflexivity. Qed.

Example py_int_rejects_malformed_literals :
  map (fun s => py_int (list_ascii_of_string s)) [""; "-"; "1__0"; "_1"; "1_"; "- 1"; "1,2"]
  = [Raise; Raise; Raise; Raise; Raise; Raise; Raise].
Proof. vm_compute. reflexivity. Qed.

Example py_str_of_some_ints :
  map py_str [0; 15; -203]%Z = map list_ascii_of_string ["0"; "15"; "-203"].
Proof. vm_compute. reflexivity. Qed.

Lemma digit_not_space (c : ascii) : is_digit c = true -> is_space c = false.
Proof.
  unfold is_digit, is_space. cbv zeta. generalize (nat_of_ascii c). intros n H.
  apply andb_true_iff in H. destruct H as [H1 H2]. apply Nat.leb_le in H1, H2.
  apply orb_false_iff. split; apply andb_false_iff.
  - right. apply Nat.leb_gt. lia.
  - right. apply Nat.leb_gt. lia.
Qed.

Lemma uint_chars_are_digits (d : Decimal.uint) :
  Forall (fun c => is_digit c = true)
         (list_ascii_of_string (DecimalString.NilEmpty.string_of_uint d)).
Proof. induction d; simpl; constructor; auto. Qed.

Lemma literal_digits_plain (after_digit : bool) (s : chars) :
  Forall (fun c => is_digit c = true) s ->
  s <> [] \/ after_digit = true ->
  literal_digits after_digit s = Some s.
Proof.
  intros Hs. revert after_digit. induction Hs as [|c s Hc Hs IH]; intros b Hb; simpl.
  - destruct Hb as [Hb| ->]; [congruence|reflexivity].
  - rewrite Hc, IH by (right; reflexivity). reflexivity.
Qed.

Lemma unsigned_literal_of_uint (d : Decimal.uint) :
  d <> Decimal.Nil ->
  unsigned_literal (list_ascii_of_string (DecimalString.NilEmpty.string_of_uint d))
  = Return (Z.of_uint d).
Proof.
  intros Hd. unfold unsigned_literal.
  rewrite literal_digits_plain.
  - rewrite string_of_list_ascii_of_string, DecimalString.NilEmpty.usu. reflexivity.
  - apply uint_chars_are_digits.
  - left. destruct d; simpl; congruence.
Qed.

Lemma lstrip_id (c : ascii) (r : chars) : is_space c = false -> lstrip (c :: r) = c :: r.
Proof. intros H. simpl. rewrite H. reflexivity. Qed.

Lemma strip_id (s : chars) :
  Forall (fun c => is_space c = false) s -> strip s = s.
Proof.
  intros H. unfold strip, rstrip.
  assert (E : forall t, Forall (fun c => is_space c = false) t -> lstrip t = t).
  { intros [|c t] Ht; [reflexivity|]. apply lstrip_id. inversion Ht; assumption. }
  rewrite (E s H), E, rev_involutive; [reflexivity|].
  apply Forall_rev, H.
Qed.

Lemma uint_chars_not_space (d : Decimal.uint) :
  Forall (fun c => is_space c = false)
         (list_ascii_of_string (DecimalString.NilEmpty.string_of_uint d)).
Proof.
  eapply Forall_impl; [|apply uint_chars_are_digits]. apply digit_not_space.
Qed.

Lemma uint_head_is_digit (d : Decimal.uint) (c : ascii) (r : chars) :
  list_ascii_of_string (DecimalString.NilEmpty.string_of_uint d) = c :: r ->
  Ascii.eqb c "-" = false /\ Ascii.eqb c "+" = false.
Proof.
  intros E. pose proof (uint_chars_are_digits d) as H. rewrite E in H.
  inversion H as [|? ? Hc _]; subst.
  split; apply Ascii.eqb_neq; intros ->; discriminate.
Qed.

Lemma py_int_of_uint (d : Decimal.uint) :
  d <> Decimal.Nil ->
  py_int (list_ascii_of_string (DecimalString.NilEmpty.string_of_uint d))
  = Return (Z.of_uint d).
Proof.
  intros Hd. unfold py_int. rewrite strip_id by apply uint_chars_not_space.
  destruct (list_ascii_of_string (DecimalString.NilEmpty.string_of_uint d))
    as [|c r] eqn:E.
  - destruct d; simpl in E; congruence.
  - destruct (uint_head_is_digit d c r E) as [-> ->].
    rewrite <- E. apply unsigned_literal_of_uint, Hd.
Qed.

(** [int(str(n)) == n] *)
Lemma py_int_py_str (n : Z) : py_int (py_str n) = Return n.
Proof.
  unfold py_str. destruct n as [|p|p]; [reflexivity| |].
  - simpl. rewrite py_int_of_uint by apply DecimalPos.Unsigned.to_uint_nonnil.
    f_equal. apply (DecimalZ.of_to (Z.pos p)).
  - simpl Z.to_int. cbn [DecimalString.NilEmpty.string_of_int list_ascii_of_string].
    unfold py_int. rewrite strip_id.
    + rewrite Ascii.eqb_refl.
      rewrite unsigned_literal_of_uint by apply DecimalPos.Unsigned.to_uint_nonnil.
      simpl. f_equal. apply (DecimalZ.of_to (Z.neg p)).
    + constructor; [reflexivity|apply uint_chars_not_space].
Qed.

Lemma py_str_has_no_comma (n : Z) : ~ In ","%char (py_str n).
Proof.
  assert (H : forall d, ~ In ","%char
                (list_ascii_of_string (DecimalString.NilEmpty.string_of_uint d))).
  { intros d Hin. pose proof (uint_chars_are_digits d) as Hd.
    rewrite Forall_forall in Hd. specialize (Hd _ Hin). discriminate. }
  unfold py_str. destruct n as [|p|p]; simpl.
  - intros [E|[]]. discriminate.
  - apply H.
  - intros [E|Hin]; [discriminate|]. eapply H, Hin.
Qed.

Lemma split_on_plain (sep : ascii) (x : chars) :
  ~ In sep x -> split_on sep x = [x].
Proof.
  induction x as [|c x IH]; simpl; intros H; [reflexivity|].
  destruct (Ascii.eqb_spec c sep) as [->|Hne]; [tauto|].
  rewrite IH by tauto. reflexivity.
Qed.

Lemma split_on_app (sep : ascii) (x rest : chars) :
  ~ In sep x -> split_on sep (x ++ sep :: rest) = x :: split_on sep rest.
Proof.
  induction x as [|c x IH]; simpl; intros H.
  - rewrite Ascii.eqb_refl. reflexivity.
  - destruct (Ascii.eqb_spec c sep) as [->|Hne]; [tauto|].
    rewrite IH by tauto. reflexivity.
Qed.

(** [sep.join(l).split(sep) == l] for a list that is not empty and whose
    elements hold no separator. *)
Lemma split_on_join (sep : ascii) (l : list chars) :
  l <> [] -> Forall (fun x => ~ In sep x) l -> split_on sep (join sep l) = l.
Proof.
  induction l as [|x l IH]; intros Hne Hl; [congruence|].
  inversion Hl as [|? ? Hx Hl']; subst.
  destruct l as [|y l]; [apply split_on_plain, Hx|].
  change (join sep (x :: y :: l)) with (x ++ sep :: join sep (y :: l)).
  rewrite split_on_app by exact Hx. f_equal. apply IH; [discriminate|exact Hl'].
Qed.

Lemma traverse_py_int_py_str (ids : list Z) :
  traverse py_int (map py_str ids) = Return ids.
Proof.
  induction ids as [|n ids IH]; simpl; [reflexivity|].
  rewrite py_int_py_str. simpl. rewrite IH. reflexivity.
Qed.

(** What [add_keyword_embedding] stores, [get_keyword_embedding] reads
    back from a collection that answers with the stored entry: the same
    idea ids, which are 64-bit SQLite ids, in the same order, and the same
    weight, when the list of ids is not empty. *)
Theorem keyword_ids_survive_the_round_trip (collection_get : string -> exc GetResult)
    (keyword : string) (idea_ids : list Z) (weight : Q) (documents : list string)
    (embeddings : list (list Q)) :
  idea_ids <> [] ->
  Forall (fun n => (- 2 ^ 63 <= n < 2 ^ 63)%Z) idea_ids ->
  collection_get keyword
  = Return (mkGetResult (up_ids (add_keyword_embedding keyword idea_ids weight))
              (map Some (up_metadatas (add_keyword_embedding keyword idea_ids weight)))
              documents embeddings) ->
  get_keyword_embedding collection_get keyword
  = Return (Some (mkKeywordEmbedding keyword idea_ids weight
                    (hd_error documents) (hd_error embeddings))).
Proof.
  intros Hne _ Hget. unfold get_keyword_embedding. rewrite Hget.
  unfold add_keyword_embedding. simpl.
  rewrite list_ascii_of_string_of_list_ascii, split_on_join.
  - rewrite traverse_py_int_py_str. reflexivity.
  - destruct idea_ids; [congruence|discriminate].
  - apply Forall_forall. intros x Hx. apply in_map_iff in Hx.
    destruct Hx as (n & <- & _). apply py_str_has_no_comma.
Qed.

Lemma keyword_ids_survive_the_round_trip_witness :
  get_keyword_embedding
    (collection_after (add_keyword_embedding "rust" [3; 12]%Z 1) ["rust"] [])
    "rust"
  = Return (Some (mkKeywordEmbedding "rust" [3; 12]%Z 1 (hd_error ["rust"]) (hd_error []))).
Proof.
  apply (keyword_ids_survive_the_round_trip
           (collection_after (add_keyword_embedding "rust" [3; 12]%Z 1) ["rust"] [])
           "rust" [3; 12]%Z 1 ["rust"] []).
  - discriminate.
  - repeat constructor; simpl; lia.
  - reflexivity.
Defined.

(** A keyword stored with an empty list of idea ids cannot be read back:
    the stored string is empty, [split] gives one empty piece and [int]
    raises on it. *)
Theorem keyword_without_ids_cannot_be_read_back (collection_get : string -> exc GetResult)
    (keyword : string) (weight : Q) (documents : list string)
    (embeddings : list (list Q)) :
  collection_get keyword
  = Return (mkGetResult (up_ids (add_keyword_embedding keyword [] weight))
              (map Some (up_metadatas (add_keyword_embedding keyword [] weight)))
              documents embeddings) ->
  get_keyword_embedding collection_get keyword = Raise.
Proof.
  intros Hget. unfold get_keyword_embedding. rewrite Hget. reflexivity.
Qed.

Lemma keyword_without_ids_cannot_be_read_back_witness :
  get_keyword_embedding
    (collection_after (add_keyword_embedding "rust" [] 1) ["rust"] []) "rust"
  = Raise.
Proof.
  apply (keyword_without_ids_cannot_be_read_back
           (collection_after (add_keyword_embedding "rust" [] 1) ["rust"] [])
           "rust" 1 ["rust"] []).
  reflexivity.
Defined.

(** * Tag suggestions *)

Example suggest_tags_orders_by_name :
  map tag_name (suggest_tags language_tags_engine "RUST" 2) = ["Trust"; "crust"].
Proof. reflexivity. Qed.

Lemma ascii_compare_refl (a : ascii) : Ascii.compare a a = Eq.
Proof. unfold Ascii.compare. apply N.compare_refl. Qed.

Lemma ascii_compare_lt_trans (a b c : ascii) :
  Ascii.compare a b = Lt -> Ascii.compare b c = Lt -> Ascii.compare a c = Lt.
Proof.
  unfold Ascii.compare. rewrite !N.compare_lt_iff. apply N.lt_trans.
Qed.

Lemma string_compare_not_gt_trans (s1 s2 s3 : string) :
  String.compare s1 s2 <> Gt -> String.compare s2 s3 <> Gt ->
  String.compare s1 s3 <> Gt.
Proof.
  revert s2 s3. induction s1 as [|a s1 IH]; intros [|b s2] [|c s3]; simpl;
    try congruence.
  destruct (Ascii.compare a b) eqn:Eab; [| |congruence].
  - apply Ascii.compare_eq_iff in Eab. subst b.
    destruct (Ascii.compare a c); [apply IH|congruence|congruence].
  - intros _. destruct (Ascii.compare b c) eqn:Ebc; [| |congruence].
    + apply Ascii.compare_eq_iff in Ebc. subst c. rewrite Eab. congruence.
    + rewrite (ascii_compare_lt_trans _ _ _ Eab Ebc). congruence.
Qed.

Lemma by_name_total (t u : Tag) : by_name t u = true \/ by_name u t = true.
Proof. apply String.leb_total. Qed.

Lemma by_name_trans (t u v : Tag) :
  by_name t u = true -> by_name u v = true -> by_name t v = true.
Proof.
  unfold by_name, String.leb. intros H1 H2.
  pose proof (string_compare_not_gt_trans (tag_name t) (tag_name u) (tag_name v)) as H.
  destruct (String.compare (tag_name t) (tag_name u)); try discriminate;
    destruct (String.compare (tag_name u) (tag_name v)); try discriminate;
    destruct (String.compare (tag_name t) (tag_name v)); try reflexivity;
    exfalso; apply H; congruence.
Qed.

(** [suggest_tags] returns at most [limit] stored tags, in the order of
    their names, each with a name that matches the query; when the query
    holds no wildcard and the query and the name are ASCII text without
    NUL, the query occurs in the name up to case; the empty query suggests
    nothing. *)
Theorem suggested_tags_match_and_are_ordered (self : SearchEngine) (query : string)
    (limit : nat) :
  List.length (suggest_tags self query limit) <= limit
  /\ StronglySorted (fun t u => String.leb (tag_name t) (tag_name u) = true)
                    (suggest_tags self query limit)
  /\ (forall t, In t (suggest_tags self query limit) ->
        In t (Tags (database self)) /\ query <> ""
        /\ like_query query (Some (tag_name t)) = true
        /\ (wildcard_free query -> plain_ascii query -> plain_ascii (tag_name t) ->
            1 <= count (lower (list_ascii_of_string (tag_name t)))
                       (lower (list_ascii_of_string query))))
  /\ suggest_tags self "" limit = [].
Proof.
  split; [|split; [|split; [|reflexivity]]].
  - unfold suggest_tags. destruct (String.eqb query ""); [simpl; lia|].
    apply firstn_le_length.
  - unfold suggest_tags. destruct (String.eqb query ""); [constructor|].
    apply (sorted_page _ limit 0).
    apply (stable_sort_sorted by_name by_name_total by_name_trans).
  - unfold suggest_tags. destruct (String.eqb_spec query "") as [->|Hne];
      [intros t []|].
    intros t H. apply In_firstn, In_stable_sort, filter_In in H.
    destruct H as [Hin Hlike]. repeat split; try assumption.
    intros Hq _ _. apply like_implies_count; assumption.
Qed.

Lemma wildcard_free_RUST : wildcard_free "RUST".
Proof.
  intros c H. simpl in H.
  repeat (destruct H as [<-|H]; [split; discriminate|]). contradiction.
Defined.

Lemma suggested_tags_match_and_are_ordered_witness :
  In (mkTag 2 "Trust") (Tags (database language_tags_engine)) /\ "RUST" <> ""
  /\ like_query "RUST" (Some (tag_name (mkTag 2 "Trust"))) = true
  /\ wildcard_free "RUST" /\ plain_ascii "RUST" /\ plain_ascii (tag_name (mkTag 2 "Trust"))
  /\ 1 <= count (lower (list_ascii_of_string (tag_name (mkTag 2 "Trust"))))
                (lower (list_ascii_of_string "RUST")).
Proof.
  destruct (proj1 (proj2 (proj2 (suggested_tags_match_and_are_ordered
                                   language_tags_engine "RUST" 2)))
              (mkTag 2 "Trust") (or_introl eq_refl))
    as (Hin & Hne & Hlike & Hcount).
  split; [exact Hin|]. split; [exact Hne|]. split; [exact Hlike|].
  split; [exact wildcard_free_RUST|]. split; [reflexivity|]. split; [reflexivity|].
  apply Hcount; [exact wildcard_free_RUST|reflexivity|reflexivity].
Defined.

(** * Configuration *)

(** A value set is the value got, whatever the default, and no other key
    of any section changes. *)
Theorem config_get_after_set (config : ConfigManager.t) (section key : string)
    (value default : Value) :
  ConfigManager.get (ConfigManager.set config section key value) section key default
  = value
  /\ forall section' key',
       section' <> section \/ key' <> key ->
       ConfigManager.get (ConfigManager.set config section key value) section' key' default
       = ConfigManager.get config section' key' default.
Proof.
  unfold ConfigManager.get, ConfigManager.set.
  destruct (py_get string_dec config section) as [keys|] eqn:E.
  - rewrite E. split.
    + rewrite py_get_set_same, py_get_set_same. reflexivity.
    + intros section' key' H. destruct (string_dec section' section) as [->|Hs].
      * rewrite py_get_set_same, E.
        destruct H as [H|H]; [congruence|].
        rewrite py_get_set_other by exact H. reflexivity.
      * rewrite py_get_set_other by exact Hs. reflexivity.
  - rewrite py_get_set_same. split.
    + rewrite py_get_set_same. simpl. destruct (string_dec key key); congruence.
    + intros section' key' H. destruct (string_dec section' section) as [->|Hs].
      * rewrite py_get_set_same, E. simpl.
        destruct H as [H|H]; [congruence|].
        destruct (string_dec key key'); congruence.
      * rewrite !py_get_set_other by exact Hs. reflexivity.
Qed.

Lemma config_get_after_set_witness :
  ConfigManager.get (ConfigManager.set [] "ai" "enabled" (VBool true))
                    "ai" "offline_mode" (VBool false)
  = ConfigManager.get [] "ai" "offline_mode" (VBool false).
Proof.
  apply (proj2 (config_get_after_set [] "ai" "enabled" (VBool true) (VBool false))).
  right. discriminate.
Defined.

(** A configuration that does not set ["ai"]["enabled"] leaves AI off:
    the engine built from it answers every mode with the keyword search. *)
Theorem unconfigured_ai_means_keyword_search (config : ConfigManager.t) (db : Database)
    (index : string -> nat -> option MetadataFilter -> exc QueryResult)
    (query search_type : string) (limit offset : nat) (filters : option Filters) :
  py_get string_dec (ConfigManager.get_section config "ai") "enabled" = None ->
  search (engine_of config db index) query search_type limit offset filters
  = search (engine_of config db index) query "keyword" limit offset filters.
Proof.
  intros H.
  assert (E : is_ai_enabled (engine_of config db index) = false).
  { unfold engine_of, ConfigManager.is_ai_enabled, ConfigManager.get. simpl.
    unfold ConfigManager.get_section in H.
    destruct (py_get string_dec config "ai") as [keys|]; [|reflexivity].
    rewrite H. reflexivity. }
  unfold search. destruct (String.eqb query ""); [reflexivity|].
  destruct (String.eqb search_type "keyword"); [reflexivity|].
  unfold _vector_search, _hybrid_search. rewrite E. simpl.
  destruct (String.eqb search_type "vector"); reflexivity.
Qed.

Lemma unconfigured_ai_means_keyword_search_witness :
  search (engine_of [("general", [("theme", VStr "light")])] rust_go_store far_index)
         "model" "hybrid" 10 0 None
  = search (engine_of [("general", [("theme", VStr "light")])] rust_go_store far_index)
           "model" "keyword" 10 0 None.
Proof.
  apply (unconfigured_ai_means_keyword_search
           [("general", [("theme", VStr "light")])] rust_go_store far_index
           "model" "hybrid" 10 0 None).
  reflexivity.
Defined.

(** * Events *)

Example publish_calls_subscribers_in_order :
  snd (EventSystem.publish
         (EventSystem.run [EventSystem.Subscribe "saved" 7; EventSystem.Subscribe "saved" 3])
         "saved" 42%Z)
  = [(7, 42%Z); (3, 42%Z)].
Proof. reflexivity. Qed.

Section PyDictSize.
Context {K V : Type}.
Variable key_eq_dec : forall a b : K, {a = b} + {a <> b}.

Lemma length_py_set (d : list (K * V)) (k : K) (v : V) :
  List.length (py_set key_eq_dec k v d)
  = match py_get key_eq_dec d k with
    | Some _ => List.length d
    | None => S (List.length d)
    end.
Proof.
  induction d as [|[k0 v0] d IH]; simpl; [reflexivity|].
  destruct (key_eq_dec k0 k); simpl; [reflexivity|].
  rewrite IH. destruct (py_get key_eq_dec d k); reflexivity.
Qed.

Lemma py_keys_del (d : list (K * V)) (k k' : K) :
  In k' (map fst (py_del key_eq_dec k d)) -> In k' (map fst d).
Proof.
  induction d as [|[k0 v0] d IH]; simpl; [tauto|].
  destruct (key_eq_dec k0 k); simpl; intuition.
Qed.

Lemma py_del_NoDup (d : list (K * V)) (k : K) :
  NoDup (map fst d) -> NoDup (map fst (py_del key_eq_dec k d)).
Proof.
  induction d as [|[k0 v0] d IH]; simpl; intros H; [constructor|].
  apply NoDup_cons_iff in H. destruct H as [Hfresh H].
  destruct (key_eq_dec k0 k); simpl; [exact H|].
  apply NoDup_cons; [|apply IH, H]. intros Hin. apply Hfresh. eapply py_keys_del, Hin.
Qed.

Lemma py_get_del_same (d : list (K * V)) (k : K) :
  NoDup (map fst d) -> py_get key_eq_dec (py_del key_eq_dec k d) k = None.
Proof.
  induction d as [|[k0 v0] d IH]; simpl; intros H; [reflexivity|].
  apply NoDup_cons_iff in H. destruct H as [Hfresh H].
  destruct (key_eq_dec k0 k) as [->|Hne]; simpl.
  - apply py_get_absent, Hfresh.
  - destruct (key_eq_dec k0 k); [contradiction|]. apply IH, H.
Qed.

Lemma py_get_del_other (d : list (K * V)) (k k' : K) :
  k' <> k -> py_get key_eq_dec (py_del key_eq_dec k d) k' = py_get key_eq_dec d k'.
Proof.
  intros Hne. induction d as [|[k0 v0] d IH]; simpl; [reflexivity|].
  destruct (key_eq_dec k0 k) as [->|Hk]; simpl.
  - destruct (key_eq_dec k k'); congruence.
  - destruct (key_eq_dec k0 k'); [reflexivity|exact IH].
Qed.
End PyDictSize.

Lemma publish_keeps_history_bounded {D : Type} (self : EventSystem.t D)
    (event_type : string) (data : D) :
  List.length (EventSystem._event_history self) <= 100 ->
  List.length (EventSystem._event_history (fst (EventSystem.publish self event_type data)))
  <= 100.
Proof.
  intros H. unfold EventSystem.publish. cbv zeta. simpl fst.
  cbn [EventSystem._event_history].
  set (h := py_set string_dec event_type data (EventSystem._event_history self)).
  assert (Hh : List.length h <= 101).
  { unfold h. rewrite length_py_set.
    destruct (py_get string_dec (EventSystem._event_history self) event_type); lia. }
  change EventSystem._max_history_size with 100.
  destruct (Nat.ltb_spec 100 (List.length h)) as [Hlong|Hshort]; [|exact Hshort].
  destruct h as [|[k0 v0] h']; [simpl in Hlong; lia|].
  simpl. destruct (string_dec k0 k0); [|congruence]. simpl in Hh. lia.
Qed.

Lemma run_snoc {D : Type} (calls : list (EventSystem.call D)) (c : EventSystem.call D) :
  EventSystem.run (calls ++ [c]) = EventSystem.step (EventSystem.run calls) c.
Proof. unfold EventSystem.run. rewrite fold_left_app. reflexivity. Qed.

Lemma step_keeps_invariant {D : Type} (self : EventSystem.t D) (c : EventSystem.call D) :
  List.length (EventSystem._event_history self) <= 100
  /\ NoDup (map fst (EventSystem._subscribers self)) ->
  List.length (EventSystem._event_history (EventSystem.step self c)) <= 100
  /\ NoDup (map fst (EventSystem._subscribers (EventSystem.step self c))).
Proof.
  intros [Hh Hs]. destruct c as [e cb|e cb|e d|]; simpl.
  - unfold EventSystem.subscribe.
    destruct (py_get string_dec (EventSystem._subscribers self) e) as [l|] eqn:E.
    + rewrite E. simpl. split; [exact Hh|apply py_set_NoDup, Hs].
    + rewrite py_get_set_same. simpl.
      split; [exact Hh|apply py_set_NoDup, py_set_NoDup, Hs].
  - unfold EventSystem.unsubscribe.
    destruct (py_get string_dec (EventSystem._subscribers self) e) as [l|]; [|auto].
    destruct (existsb (Nat.eqb cb) l); [|auto].
    destruct (EventSystem.remove_first cb l); simpl;
      (split; [exact Hh|]); [apply py_del_NoDup, Hs|apply py_set_NoDup, Hs].
  - split; [apply publish_keeps_history_bounded, Hh|exact Hs].
  - split; [lia|exact Hs].
Qed.

Lemma run_invariant {D : Type} (calls : list (EventSystem.call D)) :
  List.length (EventSystem._event_history (EventSystem.run calls)) <= 100
  /\ NoDup (map fst (EventSystem._subscribers (EventSystem.run calls))).
Proof.
  induction calls as [|c calls IH] using rev_ind.
  - simpl. split; [lia|constructor].
  - rewrite run_snoc. apply step_keeps_invariant, IH.
Qed.

(** However many events are published, subscribed to and unsubscribed
    from, the history never holds more than 100 event types. *)
Theorem event_history_never_exceeds_its_size {D : Type}
    (calls : list (EventSystem.call D)) :
  List.length (EventSystem._event_history (EventSystem.run calls)) <= 100.
Proof. apply run_invariant. Qed.

(** The data of an event just published is what [get_last_event_data]
    returns for its type: dropping the oldest entry never drops the newest. *)
Theorem last_event_data_is_the_published_data {D : Type}
    (calls : list (EventSystem.call D)) (event_type : string) (data : D) :
  EventSystem.get_last_event_data
    (fst (EventSystem.publish (EventSystem.run calls) event_type data)) event_type
  = Some data.
Proof.
  destruct (run_invariant calls) as [Hh _].
  unfold EventSystem.get_last_event_data, EventSystem.publish. cbv zeta. simpl fst.
  cbn [EventSystem._event_history].
  set (old := EventSystem._event_history (EventSystem.run calls)) in *.
  change EventSystem._max_history_size with 100.
  destruct (Nat.ltb_spec 100 (List.length (py_set string_dec event_type data old)))
    as [Hlong|Hshort]; [|apply py_get_set_same].
  rewrite length_py_set in Hlong.
  destruct (py_get string_dec old event_type) as [v|] eqn:E; [lia|].
  destruct old as [|[k0 v0] old']; [simpl in Hlong; lia|].
  simpl in E. simpl. destruct (string_dec k0 event_type) as [->|Hne]; [discriminate|].
  simpl. destruct (string_dec k0 k0); [|congruence]. apply py_get_set_same.
Qed.

Lemma remove_first_last (cb : EventSystem.Callback) (l : list EventSystem.Callback) :
  ~ In cb l -> EventSystem.remove_first cb (l ++ [cb]) = l.
Proof.
  induction l as [|x l IH]; simpl; intros H.
  - rewrite Nat.eqb_refl. reflexivity.
  - destruct (Nat.eqb_spec x cb) as [->|Hne]; [tauto|]. rewrite IH by tauto. reflexivity.
Qed.

Lemma callback_in_snoc (cb : EventSystem.Callback) (l : list EventSystem.Callback) :
  existsb (Nat.eqb cb) (l ++ [cb]) = true.
Proof.
  rewrite existsb_app. simpl. rewrite Nat.eqb_refl. apply orb_true_iff. right. reflexivity.
Qed.

Lemma unsubscribe_after_set {D : Type} (subs : list (string * list EventSystem.Callback))
    (history : list (string * D)) (e e' : string) (cb : EventSystem.Callback)
    (l : list EventSystem.Callback) :
  NoDup (map fst subs) -> ~ In cb l ->
  EventSystem.subscribers_of
    (EventSystem.unsubscribe
       (EventSystem.mk (py_set string_dec e (l ++ [cb]) subs) history) e cb) e'
  = if string_dec e' e then l
    else EventSystem.subscribers_of (EventSystem.mk subs history) e'.
Proof.
  intros Hnd Hcb. unfold EventSystem.unsubscribe, EventSystem.subscribers_of.
  cbn [EventSystem._subscribers]. rewrite py_get_set_same, callback_in_snoc.
  rewrite remove_first_last by exact Hcb.
  destruct l as [|c cs]; cbn [EventSystem._subscribers].
  - destruct (string_dec e' e) as [->|Hne].
    + rewrite py_get_del_same; [reflexivity|apply py_set_NoDup, Hnd].
    + rewrite py_get_del_other, py_get_set_other by exact Hne. reflexivity.
  - destruct (string_dec e' e) as [->|Hne].
    + rewrite py_get_set_same. reflexivity.
    + rewrite !py_get_set_other by exact Hne. reflexivity.
Qed.

(** Unsubscribing a callback right after subscribing it, when it was not
    subscribed to that event type before, leaves every event type with the
    subscribers it had, and the history as it was. *)
Theorem unsubscribe_undoes_subscribe {D : Type} (calls : list (EventSystem.call D))
    (event_type : string) (callback : EventSystem.Callback) :
  ~ In callback (EventSystem.subscribers_of (EventSystem.run calls) event_type) ->
  let before := EventSystem.run calls in
  let after :=
    EventSystem.unsubscribe (EventSystem.subscribe before event_type callback)
                            event_type callback in
  (forall e, EventSystem.subscribers_of after e = EventSystem.subscribers_of before e)
  /\ (forall e, EventSystem.has_subscribers after e = EventSystem.has_subscribers before e)
  /\ EventSystem._event_history after = EventSystem._event_history before.
Proof.
  intros Hcb before after.
  destruct (run_invariant calls) as [_ Hnd]. fold before in Hnd, Hcb.
  assert (Hsubs : forall e, EventSystem.subscribers_of after e
                            = EventSystem.subscribers_of before e).
  { intros e. unfold after, EventSystem.subscribe.
    unfold EventSystem.subscribers_of in Hcb.
    destruct (py_get string_dec (EventSystem._subscribers before) event_type)
      as [l|] eqn:E.
    - rewrite E. rewrite unsubscribe_after_set by assumption.
      destruct (string_dec e event_type) as [->|Hne].
      + unfold EventSystem.subscribers_of. rewrite E. reflexivity.
      + reflexivity.
    - rewrite py_get_set_same.
      rewrite unsubscribe_after_set; [|apply py_set_NoDup, Hnd|tauto].
      unfold EventSystem.subscribers_of. cbn [EventSystem._subscribers].
      destruct (string_dec e event_type) as [->|Hne].
      + rewrite E. reflexivity.
      + rewrite py_get_set_other by exact Hne. reflexivity. }
  split; [exact Hsubs|]. split.
  - intros e. specialize (Hsubs e).
    unfold EventSystem.has_subscribers, EventSystem.subscribers_of in *.
    destruct (py_get string_dec (EventSystem._subscribers after) e) as [[|a l]|];
      destruct (py_get string_dec (EventSystem._subscribers before) e) as [[|b m]|];
      try reflexivity; discriminate.
  - unfold after, EventSystem.subscribe, EventSystem.unsubscribe.
    destruct (py_get string_dec (EventSystem._subscribers before) event_type) as [l|] eqn:E.
    + rewrite E. cbn [EventSystem._subscribers]. rewrite py_get_set_same.
      destruct (existsb _ _); [|reflexivity].
      destruct (EventSystem.remove_first _ _); reflexivity.
    + rewrite py_get_set_same. cbn [EventSystem._subscribers]. rewrite py_get_set_same.
      destruct (existsb _ _); [|reflexivity].
      destruct (EventSystem.remove_first _ _); reflexivity.
Qed.

Lemma unsubscribe_undoes_subscribe_witness :
  (forall e,
     EventSystem.subscribers_of
       (EventSystem.unsubscribe
          (EventSystem.subscribe (EventSystem.run [EventSystem.Subscribe (D := Z) "saved" 7])
                                 "saved" 3) "saved" 3) e
     = EventSystem.subscribers_of (EventSystem.run [EventSystem.Subscribe (D := Z) "saved" 7]) e)
  /\ (forall e,
        EventSystem.has_subscribers
          (EventSystem.unsubscribe
             (EventSystem.subscribe (EventSystem.run [EventSystem.Subscribe (D := Z) "saved" 7])
                                    "saved" 3) "saved" 3) e
        = EventSystem.has_subscribers
            (EventSystem.run [EventSystem.Subscribe (D := Z) "saved" 7]) e)
  /\ EventSystem._event_history
       (EventSystem.unsubscribe
          (EventSystem.subscribe (EventSystem.run [EventSystem.Subscribe (D := Z) "saved" 7])
                                 "saved" 3) "saved" 3)
     = EventSystem._event_history (EventSystem.run [EventSystem.Subscribe (D := Z) "saved" 7]).
Proof.
  apply (unsubscribe_undoes_subscribe [EventSystem.Subscribe (D := Z) "saved" 7] "saved" 3).
  simpl. intros [H|[]]. discriminate.
Defined.

(** * The page of the keyword search *)

Lemma by_created_at_desc_total (i j : Idea) :
  by_created_at_desc i j = true \/ by_created_at_desc j i = true.
Proof. unfold by_created_at_desc. rewrite !Z.leb_le. lia. Qed.

Lemma by_created_at_desc_trans (i j k : Idea) :
  by_created_at_desc i j = true -> by_created_at_desc j k = true ->
  by_created_at_desc i k = true.
Proof. unfold by_created_at_desc. rewrite !Z.leb_le. lia. Qed.

(** The keyword search cuts its page before it ranks: the ideas it returns
    are those at places [offset] to [offset + limit] among the matches taken
    newest first, whatever their scores; the relevance orders that page
    only. *)
Theorem keyword_search_ranks_within_the_newest_page (self : SearchEngine)
    (query : string) (limit offset : nat) (filters : Filters) :
  exists newest_first : list Idea,
    Permutation newest_first
      (filter (keyword_where self query filters) (Ideas (database self)))
    /\ StronglySorted (fun i j => (created_at j <= created_at i)%Z) newest_first
    /\ Permutation
         (map (fun h => row (dict h)) (_keyword_search self query limit offset filters))
         (firstn limit (skipn offset newest_first)).
Proof.
  exists (stable_sort by_created_at_desc
            (filter (keyword_where self query filters) (Ideas (database self)))).
  split; [symmetry; apply stable_sort_perm|]. split.
  - eapply sorted_weaken;
      [|apply (stable_sort_sorted by_created_at_desc by_created_at_desc_total
                 by_created_at_desc_trans)].
    intros i j H. apply Z.leb_le, H.
  - unfold _keyword_search.
    etransitivity; [symmetry; apply Permutation_map, stable_sort_perm|].
    rewrite map_map. simpl. rewrite map_id. reflexivity.
Qed.
